(** * tonsdk: the Python binding over the TON client native library

    A shallow embedding of [tonsdk/lib.py] and [tonsdk/client.py].  Python
    values are a small universe [val]; a [dict] with string keys is a
    [gmap string val]; a raised exception is a value of [exc]; a function that
    talks to the native library is a state transformer over a [World]
    carrying the engine's state and the log of the calls made so far, and it
    either returns or raises.  The native engine, the [ctypes] structures of
    [tonsdk.ton_types], [tonsdk.bindings.lib] and the facade modules of
    [tonsdk.module] are not part of these sources: they are parameters. *)

From Stdlib Require Import ZArith String Ascii List Bool Floats.
From stdpp Require Import gmap strings list pretty.

Set Warnings "-register-all".
Open Scope string_scope.

(** ** Python values and exceptions *)

Inductive val : Type :=
| VNone
| VBool (b : bool)
| VInt (z : Z)
| VFloat (f : float)
| VStr (s : string)
| VList (l : list val)
| VDict (d : gmap string val).

(** An exception object: the name of its class and the argument it was
    built with ([Exception(payload)] is [mk_exc "Exception" payload]). *)
Record exc : Type := mk_exc { exc_class : string; exc_arg : val }.

Inductive result (A : Type) : Type :=
| Ret (a : A)
| Raise (e : exc).
Arguments Ret {A} a.
Arguments Raise {A} e.

Definition result_bind {A B : Type} (r : result A) (k : A -> result B) : result B :=
  match r with
  | Ret a => k a
  | Raise e => Raise e
  end.

(** An exception of the built-in base class [Exception] itself: the generic
    failure, which no [except] clause can tell from any other error. *)
Definition generic_failure (e : exc) : bool := String.eqb (exc_class e) "Exception".

(** [bool(v)]: Python truthiness, as [or] and [not] read it. *)
Definition truthy (v : val) : bool :=
  match v with
  | VNone => false
  | VBool b => b
  | VInt z => negb (z =? 0)%Z
  | VFloat f => negb (PrimFloat.eqb f 0%float)
  | VStr s => negb (String.eqb s "")
  | VList l => match l with [] => false | _ => true end
  | VDict d => negb (bool_decide (d = ∅))
  end.

(** [a or b] *)
Definition py_or (a b : val) : val := if truthy a then a else b.

(** [d[k]]: a missing key raises [KeyError]. *)
Definition getitem (d : gmap string val) (k : string) : result val :=
  match d !! k with
  | Some v => Ret v
  | None => Raise (mk_exc "KeyError" (VStr k))
  end.

(** [{**a, **b}]: the entries of [b] over those of [a]. *)
Definition dict_merge (a b : gmap string val) : gmap string val := b ∪ a.

(** [ctypes.c_uint32(z)]: the value wraps to 32 bits. *)
Definition c_uint32 (z : Z) : Z := (z mod 2 ^ 32)%Z.

(** The Python integer a foreign function hands back when its [restype] is
    left at the default, [c_int]: the 32 bits read as a signed number. *)
Definition c_int (z : Z) : Z := ((z + 2 ^ 31) mod 2 ^ 32 - 2 ^ 31)%Z.

(** ** Strings: the [str] methods the module uses, on ASCII text *)

Definition is_upper (c : ascii) : bool :=
  let n := N_of_ascii c in (65 <=? n)%N && (n <=? 90)%N.

Definition is_lower (c : ascii) : bool :=
  let n := N_of_ascii c in (97 <=? n)%N && (n <=? 122)%N.

Definition ascii_lower (c : ascii) : ascii :=
  if is_upper c then ascii_of_N (N_of_ascii c + 32) else c.

Definition ascii_upper (c : ascii) : ascii :=
  if is_lower c then ascii_of_N (N_of_ascii c - 32) else c.

(** [s.lower()] *)
Fixpoint lower (s : string) : string :=
  match s with
  | EmptyString => EmptyString
  | String c r => String (ascii_lower c) (lower r)
  end.

(** [s.capitalize()]: first character upper-cased, the rest lower-cased. *)
Definition capitalize (s : string) : string :=
  match s with
  | EmptyString => EmptyString
  | String c r => String (ascii_upper c) (lower r)
  end.

(** [s.startswith(String c "")] *)
Definition startswith_char (s : string) (c : ascii) : bool :=
  match s with
  | String c' _ => Ascii.eqb c' c
  | EmptyString => false
  end.

(** [s.endswith(String c "")] *)
Fixpoint endswith_char (s : string) (c : ascii) : bool :=
  match s with
  | EmptyString => false
  | String c' EmptyString => Ascii.eqb c' c
  | String _ r => endswith_char r c
  end.

(** [s.endswith(suf)] *)
Fixpoint endswith (s suf : string) : bool :=
  if String.eqb s suf then true
  else match s with
       | EmptyString => false
       | String _ r => endswith r suf
       end.

(** [s.split(String sep "")]: the pieces between the occurrences of the
    separator, empty pieces kept; never an empty list. *)
Fixpoint split_char (sep : ascii) (s : string) : list string :=
  match s with
  | EmptyString => [EmptyString]
  | String c r =>
      if Ascii.eqb c sep then EmptyString :: split_char sep r
      else match split_char sep r with
           | piece :: pieces => String c piece :: pieces
           | [] => [String c EmptyString]
           end
  end.

(** [s.count(String c "")] *)
Fixpoint count_char (c : ascii) (s : string) : nat :=
  match s with
  | EmptyString => 0
  | String c' r => (if Ascii.eqb c' c then 1 else 0) + count_char c r
  end.

(** [String sep "".join(pieces)] *)
Fixpoint join_char (sep : ascii) (pieces : list string) : string :=
  match pieces with
  | [] => EmptyString
  | [piece] => piece
  | piece :: rest => piece ++ String sep (join_char sep rest)
  end.

(** The one-character string holding a double quote. *)
Definition dquote : string := String (ascii_of_N 34) EmptyString.

(** [os.path.join(a, b)] for a path module whose separator is [sep]
    ([posixpath.join] at [sep = "/"]). *)
Definition os_path_join (sep : ascii) (a b : string) : string :=
  if startswith_char b sep then b
  else if String.eqb a "" || endswith_char a sep then a ++ b
  else a ++ String sep b.

(** ** The world outside the Python code *)

(** Modelled from the spec: [tonsdk.ton_types.InteropString] is not among
    the sources.  The spec has it as length-prefixed UTF-8 text, a struct of
    the bytes and their explicit length (a [c_uint32]). *)
Record InteropString : Type := { content : string; len : Z }.

Definition from_string (s : string) : InteropString :=
  {| content := s; len := c_uint32 (Z.of_nat (String.length s)) |}.

(** A pointer to an engine-owned response. *)
Definition ptr : Type := Z.

(** The calls that leave the code of [lib.py] and [client.py], as they are
    made: the five foreign entry points [lib.py] calls on the shared object,
    and the three calls [client.py] makes into [tonsdk.bindings.lib] and
    [tonsdk.module]. *)
Inductive call : Type :=
| Call_create_context (ret : Z)
| Call_destroy_context (context : Z)
| Call_json_request (context : Z) (method params : InteropString) (ret : ptr)
| Call_read_json_response (response : ptr)
| Call_destroy_json_response (response : ptr)
| Call_bindings_create_context (ret : Z)
| Call_bindings_destroy_context (ctx : Z)
| Call_module_request (ctx : Z) (method : string) (kwargs : gmap string val).

(** The engine's state and the calls made so far, oldest first. *)
Record World (E : Type) : Type := { eng : E; calls : list call }.
Arguments eng {E} _.
Arguments calls {E} _.

(** A computation that may change the world and either returns or raises;
    what it did before raising stays done. *)
Definition M (E A : Type) : Type := World E -> World E * result A.

Definition ret {E A : Type} (a : A) : M E A := fun w => (w, Ret a).

Definition raise {E A : Type} (e : exc) : M E A := fun w => (w, Raise e).

Definition bind {E A B : Type} (m : M E A) (k : A -> M E B) : M E B :=
  fun w =>
    match m w with
    | (w', Ret a) => k a w'
    | (w', Raise e) => (w', Raise e)
    end.

Definition lift {E A : Type} (r : result A) : M E A := fun w => (w, r).

Notation "x <- m ;; k" := (bind m (fun x => k))
  (at level 100, m at next level, right associativity).

(** The calls a computation adds to the log of [w]. *)
Definition made {E A : Type} (m : M E A) (w : World E) : list call :=
  drop (length (calls w)) (calls (fst (m w))).

(** What a computation returns or raises from [w]. *)
Definition outcome {E A : Type} (m : M E A) (w : World E) : result A := snd (m w).

(** ** tonsdk/lib.py *)

Module Lib.

(** What the module reads from the interpreter when it is imported:
    [platform.system()], the directory of [__file__] and the separator of
    [os.path]. *)
Record Platform : Type := {
  platform_system : string;
  BASE_DIR : string;
  os_sep : ascii
}.

Definition LIB_VERSION : string := "0.25.0".
Definition LIB_DIR (p : Platform) : string := os_path_join (os_sep p) (BASE_DIR p) "bin".
Definition LIB_FILENAME : string := "ton-rust-client-" ++ LIB_VERSION.

Definition DEVNET_BASE_URL : string := "net.ton.dev".
Definition MAINNET_BASE_URL : string := "main.ton.dev".

Definition TON_CLIENT_DEFAULT_SETUP : gmap string val :=
  <["baseUrl" := VStr DEVNET_BASE_URL]>
  (<["messageRetriesCount" := VInt 1]>
  (<["messageExpirationTimeout" := VInt 50000]>
  (<["messageExpirationTimeoutGrowFactor" := VFloat 1.5]>
  (<["messageProcessingTimeout" := VInt 50000]>
  (<["messageProcessingTimeoutGrowFactor" := VFloat 1.5]>
  (<["waitForTimeout" := VInt 30000]>
  (<["accessKey" := VStr ""]> ∅))))))).

Definition lib_ext_dict : gmap string string :=
  <["windows" := "dll"]> (<["darwin" := "dylib"]> (<["linux" := "so"]> ∅)).

Definition get_lib_basename (p : Platform) : result string :=
  let plt := lower (platform_system p) in
  match lib_ext_dict !! plt with
  | None =>
      Raise (mk_exc "RuntimeError"
               (VStr ("No library for current platform " ++ dquote ++ capitalize plt ++ dquote)))
  | Some ext => Ret (os_path_join (os_sep p) (LIB_DIR p) (LIB_FILENAME ++ "." ++ ext))
  end.

(** The loaded shared object ([self.lib]): the five entry points the module
    calls, over an engine state [E] this binding cannot see into.  [R] is the
    structure [tc_read_json_response] returns by value. *)
Record NativeLib (E R : Type) : Type := {
  tc_create_context : E -> Z * E;
  tc_destroy_context : Z -> E -> E;
  tc_json_request : Z -> InteropString -> InteropString -> E -> ptr * E;
  tc_read_json_response : ptr -> E -> R;
  tc_destroy_json_response : ptr -> E -> E
}.
Arguments tc_create_context {E R} _ _.
Arguments tc_destroy_context {E R} _ _ _.
Arguments tc_json_request {E R} _ _ _ _ _.
Arguments tc_read_json_response {E R} _ _ _.
Arguments tc_destroy_json_response {E R} _ _ _.

(** Modelled from the spec: [tonsdk.ton_types.InteropJsonResponse] is not
    among the sources.  [_request] reads two attributes of it, [is_success]
    and [json]; the spec has the first as a boolean flag and the second as
    the decoded JSON payload, whose decoding can fail.  Both accessors are
    parameters; the one that decodes may raise. *)
Record JsonResponseType (R : Type) : Type := {
  is_success : R -> bool;
  json : R -> result val
}.
Arguments is_success {R} _ _.
Arguments json {R} _ _.

(** What the interpreter provides besides: [json.dumps],
    [ctypes.cdll.LoadLibrary] and the imported [InteropJsonResponse]. *)
Record Runtime (E R : Type) : Type := {
  json_dumps : val -> string;
  LoadLibrary : string -> result (NativeLib E R);
  response_type : JsonResponseType R
}.
Arguments json_dumps {E R} _ _.
Arguments LoadLibrary {E R} _ _.
Arguments response_type {E R} _.

(** Each foreign call runs the entry point on the engine and is logged. *)
Definition ffi_create_context {E R : Type} (lib : NativeLib E R) : M E Z :=
  fun w =>
    let '(h, e) := tc_create_context lib (eng w) in
    ({| eng := e; calls := calls w ++ [Call_create_context h] |}, Ret h).

Definition ffi_destroy_context {E R : Type} (lib : NativeLib E R) (context : Z) : M E unit :=
  fun w =>
    ({| eng := tc_destroy_context lib context (eng w);
        calls := calls w ++ [Call_destroy_context context] |}, Ret tt).

Definition ffi_json_request {E R : Type} (lib : NativeLib E R)
    (context : Z) (method params : InteropString) : M E ptr :=
  fun w =>
    let '(p, e) := tc_json_request lib context method params (eng w) in
    ({| eng := e; calls := calls w ++ [Call_json_request context method params p] |}, Ret p).

Definition ffi_read_json_response {E R : Type} (lib : NativeLib E R) (response : ptr) : M E R :=
  fun w =>
    ({| eng := eng w; calls := calls w ++ [Call_read_json_response response] |},
     Ret (tc_read_json_response lib response (eng w))).

Definition ffi_destroy_json_response {E R : Type} (lib : NativeLib E R) (response : ptr)
    : M E unit :=
  fun w =>
    ({| eng := tc_destroy_json_response lib response (eng w);
        calls := calls w ++ [Call_destroy_json_response response] |}, Ret tt).

Definition TYPE_TEXT : string := "text".
Definition TYPE_HEX : string := "hex".
Definition TYPE_BASE64 : string := "base64".

(** The instance: [self.lib] and [self.context], both set by [__init__] and
    assigned nowhere else in the class. *)
Record TonClient (E R : Type) : Type := {
  lib : NativeLib E R;
  context : Z
}.
Arguments lib {E R} _.
Arguments context {E R} _.

Section TonClient.
Context {E R : Type}.
Variable rt : Runtime E R.

Definition _create_context (l : NativeLib E R) : M E Z :=
  context <- ffi_create_context l ;;
  ret (c_uint32 context).

Definition _destroy_context (self : TonClient E R) (context : Z) : M E unit :=
  ffi_destroy_context (lib self) context.

(** [TonClient(lib_path)] *)
Definition __init__ (lib_path : string) : M E (TonClient E R) :=
  l <- lift (LoadLibrary rt lib_path) ;;
  context <- _create_context l ;;
  ret {| lib := l; context := context |}.

(** The [logger.debug] lines write to the log handlers only and are left
    out. *)
Definition _request (self : TonClient E R) (method_name : string) (params : val)
    : M E (gmap string val) :=
  let method_name := from_string method_name in
  let params := json_dumps rt (py_or params (VDict ∅)) in
  let params := from_string params in
  response <- ffi_json_request (lib self) (context self) method_name params ;;
  read <- ffi_read_json_response (lib self) response ;;
  let is_success := is_success (response_type rt) read in
  response_json <- lift (json (response_type rt) read) ;;
  _ <- ffi_destroy_json_response (lib self) response ;;
  ret (<["success" := VBool is_success]> (<["result" := response_json]> ∅)).

(** The two strings [_request] hands to the engine, the pointer the engine
    returns for them from world [w], and the structure read back from it. *)
Definition request_method (method_name : string) : InteropString := from_string method_name.

Definition request_params (params : val) : InteropString :=
  from_string (json_dumps rt (py_or params (VDict ∅))).

Definition response_ptr (self : TonClient E R) (method_name : string) (params : val)
    (w : World E) : ptr :=
  fst (tc_json_request (lib self) (context self)
         (request_method method_name) (request_params params) (eng w)).

Definition response_read (self : TonClient E R) (method_name : string) (params : val)
    (w : World E) : R :=
  let '(p, e) := tc_json_request (lib self) (context self)
                   (request_method method_name) (request_params params) (eng w) in
  tc_read_json_response (lib self) p e.

(** The world once [self._destroy_context(self.context)] has run in [w]. *)
Definition after_destroy (self : TonClient E R) (w : World E) : World E :=
  fst (_destroy_context self (context self) w).

Definition _str_type_dict (self : TonClient E R) (string_ fmt : string)
    : result (gmap string val) :=
  if String.eqb fmt TYPE_BASE64 then Ret {[ "base64" := VStr string_ ]}
  else if String.eqb fmt TYPE_HEX then Ret {[ "hex" := VStr string_ ]}
  else if String.eqb fmt TYPE_TEXT then Ret {[ "text" := VStr string_ ]}
  else Raise (mk_exc "ValueError" (VStr "One of 'base64, hex, text' should be provided")).

(** A format tag that is none of the three constants, and the error
    [_str_type_dict] raises for it. *)
Definition unknown_format (fmt : string) : Prop :=
  fmt <> TYPE_BASE64 /\ fmt <> TYPE_HEX /\ fmt <> TYPE_TEXT.

Definition format_error : exc :=
  mk_exc "ValueError" (VStr "One of 'base64, hex, text' should be provided").

(** [raise_exception and not result["success"]] reads the flag only when
    [raise_exception] holds. *)
Definition request (self : TonClient E R) (method : string) (params : val)
    (raise_exception : bool) : M E val :=
  result <- _request self method params ;;
  failed <- (if raise_exception then
               success <- lift (getitem result "success") ;;
               ret (negb (truthy success))
             else ret false) ;;
  if (failed : bool) then
    payload <- lift (getitem result "result") ;;
    raise (mk_exc "Exception" payload)
  else
    lift (getitem result "result").

(** [settings] defaults to [TON_CLIENT_DEFAULT_SETUP]; what the caller
    passes is sent as it is, with no merge over the defaults. *)
Definition setup (self : TonClient E R) (settings : option (gmap string val)) : M E val :=
  request self "setup" (VDict (default TON_CLIENT_DEFAULT_SETUP settings)) true.

Definition version (self : TonClient E R) : M E val :=
  request self "version" VNone true.

Definition ton_crc16 (self : TonClient E R) (string_ fmt : string) : M E val :=
  params <- lift (_str_type_dict self string_ fmt) ;;
  request self "crypto.ton_crc16" (VDict params) true.

Definition random_generate_bytes (self : TonClient E R) (length : Z) : M E val :=
  let params := {[ "length" := VInt length ]} in
  request self "crypto.random.generateBytes" (VDict params) true.

Definition derive_sign_keys (self : TonClient E R) (mnemonic : string) : M E val :=
  let params :=
    <["phrase" := VStr mnemonic]>
    (<["wordCount" := VInt (Z.of_nat (List.length (split_char " " mnemonic)))]> ∅) in
  request self "crypto.mnemonic.derive.sign.keys" (VDict params) true.

(** [word_count] defaults to 24. *)
Definition mnemonic_generate (self : TonClient E R) (word_count : option Z) : M E val :=
  let params := {[ "wordCount" := VInt (default 24%Z word_count) ]} in
  request self "crypto.mnemonic.from.random" (VDict params) true.

Definition mnemonic_from_entropy (self : TonClient E R) (entropy fmt : string)
    (word_count : option Z) : M E val :=
  entropy' <- lift (_str_type_dict self entropy fmt) ;;
  let params :=
    <["wordCount" := VInt (default 24%Z word_count)]>
    (<["entropy" := VDict entropy']> ∅) in
  request self "crypto.mnemonic.from.entropy" (VDict params) true.

Definition mnemonic_verify (self : TonClient E R) (mnemonic : string) : M E val :=
  let params :=
    <["phrase" := VStr mnemonic]>
    (<["wordCount" := VInt (Z.of_nat (List.length (split_char " " mnemonic)))]> ∅) in
  request self "crypto.mnemonic.verify" (VDict params) true.

Definition mnemonic_words (self : TonClient E R) : M E val :=
  request self "crypto.mnemonic.words" VNone true.

Definition sha512 (self : TonClient E R) (string_ fmt : string) : M E val :=
  message <- lift (_str_type_dict self string_ fmt) ;;
  request self "crypto.sha512" (VDict {[ "message" := VDict message ]}) true.

Definition sha256 (self : TonClient E R) (string_ fmt : string) : M E val :=
  message <- lift (_str_type_dict self string_ fmt) ;;
  request self "crypto.sha256" (VDict {[ "message" := VDict message ]}) true.

(** The entries of the dict display are evaluated in the order written:
    the salt is adapted before the password. *)
Definition scrypt (self : TonClient E R) (data : string) (n r p dk_len : Z)
    (salt salt_fmt password password_fmt : string) : M E val :=
  salt' <- lift (_str_type_dict self salt salt_fmt) ;;
  password' <- lift (_str_type_dict self password password_fmt) ;;
  let params :=
    <["data" := VStr data]>
    (<["salt" := VDict salt']>
    (<["password" := VDict password']>
    (<["logN" := VInt n]>
    (<["r" := VInt r]>
    (<["p" := VInt p]>
    (<["dkLen" := VInt dk_len]> ∅)))))) in
  request self "crypto.scrypt" (VDict params) true.

Definition keystore_add (self : TonClient E R) (keypair : gmap string val) : M E val :=
  request self "crypto.keystore.add" (VDict keypair) true.

(** [index] is a [str] or an [int]; [str(index)] is the text itself or the
    decimal numeral.  The method has no [return]: it gives [None]. *)
Definition keystore_remove (self : TonClient E R) (index : string + Z) : M E val :=
  let str_index := match index with inl s => s | inr z => pretty z end in
  _ <- request self "crypto.keystore.remove" (VStr str_index) true ;;
  ret VNone.

Definition keystore_clear (self : TonClient E R) : M E val :=
  _ <- request self "crypto.keystore.clear" VNone true ;;
  ret VNone.

Definition hdkey_xprv_from_mnemonic (self : TonClient E R) (mnemonic : string) : M E val :=
  let params :=
    <["phrase" := VStr mnemonic]>
    (<["wordCount" := VInt (Z.of_nat (List.length (split_char " " mnemonic)))]> ∅) in
  request self "crypto.hdkey.xprv.from.mnemonic" (VDict params) true.

Definition hdkey_xprv_secret (self : TonClient E R) (bip32_key : string) : M E val :=
  let params := {[ "serialized" := VStr bip32_key ]} in
  request self "crypto.hdkey.xprv.secret" (VDict params) true.

Definition hdkey_xprv_public (self : TonClient E R) (bip32_key : string) : M E val :=
  let params := {[ "serialized" := VStr bip32_key ]} in
  request self "crypto.hdkey.xprv.public" (VDict params) true.

Definition hdkey_xprv_derive_path (self : TonClient E R) (bip32_key derive_path : string)
    : M E val :=
  let params := <["serialized" := VStr bip32_key]> (<["path" := VStr derive_path]> ∅) in
  request self "crypto.hdkey.xprv.derive.path" (VDict params) true.

Definition hdkey_xprv_derive (self : TonClient E R) (bip32_key : string) (index : Z)
    : M E val :=
  let params := <["serialized" := VStr bip32_key]> (<["index" := VInt index]> ∅) in
  request self "crypto.hdkey.xprv.derive" (VDict params) true.

Definition factorize (self : TonClient E R) (number : string) : M E val :=
  request self "crypto.math.factorize" (VStr number) true.

Definition ton_public_key_string (self : TonClient E R) (public_key : string) : M E val :=
  request self "crypto.ton_public_key_string" (VStr public_key) true.

Definition ed25519_keypair (self : TonClient E R) : M E val :=
  request self "crypto.ed25519.keypair" VNone true.

Definition modular_power (self : TonClient E R) (base exponent modulus : string) : M E val :=
  let params :=
    <["base" := VStr base]>
    (<["exponent" := VStr exponent]> (<["modulus" := VStr modulus]> ∅)) in
  request self "crypto.math.modularPower" (VDict params) true.

Definition nacl_box_keypair (self : TonClient E R) : M E val :=
  request self "crypto.nacl.box.keypair" VNone true.

Definition nacl_sign_keypair (self : TonClient E R) : M E val :=
  request self "crypto.nacl.sign.keypair" VNone true.

Definition nacl_sign_keypair_from_secret_key (self : TonClient E R) (secret_key : string)
    : M E val :=
  request self "crypto.nacl.sign.keypair.fromSecretKey" (VStr secret_key) true.

Definition nacl_box (self : TonClient E R) (nonce their_public_key message fmt : string)
    : M E val :=
  message' <- lift (_str_type_dict self message fmt) ;;
  let params :=
    <["nonce" := VStr nonce]>
    (<["theirPublicKey" := VStr their_public_key]>
    (<["message" := VDict message']> ∅)) in
  request self "crypto.nacl.box" (VDict params) true.

Definition nacl_sign (self : TonClient E R) (key message fmt : string) : M E val :=
  message' <- lift (_str_type_dict self message fmt) ;;
  let params := <["key" := VStr key]> (<["message" := VDict message']> ∅) in
  request self "crypto.nacl.sign" (VDict params) true.

Definition nacl_box_keypair_from_secret_key (self : TonClient E R) (key : string) : M E val :=
  request self "crypto.nacl.box.keypair.fromSecretKey" (VStr key) true.

Definition nacl_secret_box_open (self : TonClient E R)
    (nonce their_public_key message fmt : string) : M E val :=
  message' <- lift (_str_type_dict self message fmt) ;;
  let params :=
    <["nonce" := VStr nonce]>
    (<["key" := VStr their_public_key]>
    (<["message" := VDict message']> ∅)) in
  request self "crypto.nacl.secret.box.open" (VDict params) true.

Definition nacl_sign_detached (self : TonClient E R) (key message fmt : string) : M E val :=
  message' <- lift (_str_type_dict self message fmt) ;;
  let params := <["key" := VStr key]> (<["message" := VDict message']> ∅) in
  request self "crypto.nacl.sign.detached" (VDict params) true.

Definition nacl_secret_box (self : TonClient E R)
    (nonce their_public_key message fmt : string) : M E val :=
  message' <- lift (_str_type_dict self message fmt) ;;
  let params :=
    <["nonce" := VStr nonce]>
    (<["key" := VStr their_public_key]>
    (<["message" := VDict message']> ∅)) in
  request self "crypto.nacl.secret.box" (VDict params) true.

Definition nacl_box_open (self : TonClient E R)
    (nonce their_public_key secret_key message fmt : string) : M E val :=
  message' <- lift (_str_type_dict self message fmt) ;;
  let params :=
    <["nonce" := VStr nonce]>
    (<["theirPublicKey" := VStr their_public_key]>
    (<["secretKey" := VStr secret_key]>
    (<["message" := VDict message']> ∅))) in
  request self "crypto.nacl.box.open" (VDict params) true.

Definition nacl_sign_open (self : TonClient E R) (key message fmt : string) : M E val :=
  message' <- lift (_str_type_dict self message fmt) ;;
  let params := <["key" := VStr key]> (<["message" := VDict message']> ∅) in
  request self "crypto.nacl.sign.open" (VDict params) true.

End TonClient.

(** Importing [tonsdk.lib] runs the module body: the [def] of [__init__]
    evaluates the default of [lib_path], which is [get_lib_basename()]. *)
Record Module_ : Type := { default_lib_path : string }.

Definition import_ (p : Platform) : result Module_ :=
  result_bind (get_lib_basename p) (fun path => Ret {| default_lib_path := path |}).

(** [from tonsdk.lib import TonClient; TonClient()] on platform [p]. *)
Definition new_client {E R : Type} (rt : Runtime E R) (p : Platform) : M E (TonClient E R) :=
  m <- lift (import_ p) ;;
  __init__ rt (default_lib_path m).

End Lib.

(** ** tonsdk/client.py *)

Module Client.

Definition DEVNET_BASE_URL : string := "net.ton.dev".
Definition MAINNET_BASE_URL : string := "main.ton.dev".

Definition TON_CLIENT_DEFAULT_SETUP : gmap string val :=
  <["servers" := VList [VStr "http://localhost"]]>
  (<["messageRetriesCount" := VInt 1]>
  (<["messageExpirationTimeout" := VInt 50000]>
  (<["messageExpirationTimeoutGrowFactor" := VFloat 1.5]>
  (<["messageProcessingTimeout" := VInt 50000]>
  (<["messageProcessingTimeoutGrowFactor" := VFloat 1.5]>
  (<["waitForTimeout" := VInt 30000]>
  (<["accessKey" := VStr ""]> ∅))))))).

(** Modelled from the spec: [tonsdk.bindings.lib] and [tonsdk.module] are
    not among the sources.  The spec has [tc_create_context] return a handle,
    [tc_destroy_context] take one, and a facade module delegate each call, as
    a method name and a parameter object, to the context it was built with.
    The three are parameters over the engine state; [TonModule.request] may
    raise, and so may [tc_destroy_context], which the spec lets answer an
    invalid handle with a typed error. *)
Record Bindings (E : Type) : Type := {
  tc_create_context : E -> Z * E;
  tc_destroy_context : Z -> E -> result unit * E;
  TonModule_request : Z -> string -> gmap string val -> E -> result val * E
}.
Arguments tc_create_context {E} _ _.
Arguments tc_destroy_context {E} _ _ _.
Arguments TonModule_request {E} _ _ _ _ _.

(** A facade ([TonModule] and its subclasses): built with [ctx=...]. *)
Record TonModule : Type := { ctx : Z }.

Record TonClient : Type := {
  _ctx : Z;
  base : TonModule;
  crypto : TonModule;
  queries : TonModule;
  contracts : TonModule
}.

(** A call that hands one parameter two values: a keyword that names a
    parameter already filled by position, or a keyword given both explicitly
    and through an unpacked mapping.  Python raises [TypeError] for it before
    the body of the callee runs. *)
Inductive call_error : Type :=
| Multiple_values_for_argument (callee parameter : string)
| Multiple_values_for_keyword_argument (callee keyword : string).

Section TonClient.
Context {E : Type}.

(** The text the running interpreter gives the [TypeError] of such a call;
    the wording differs between versions of CPython. *)
Variable type_error_text : call_error -> string.

Variable b : Bindings E.

Definition call_create_context : M E Z :=
  fun w =>
    let '(h, e) := tc_create_context b (eng w) in
    ({| eng := e; calls := calls w ++ [Call_bindings_create_context h] |}, Ret h).

Definition call_destroy_context (ctx : Z) : M E unit :=
  fun w =>
    ({| eng := snd (tc_destroy_context b ctx (eng w));
        calls := calls w ++ [Call_bindings_destroy_context ctx] |},
     fst (tc_destroy_context b ctx (eng w))).

(** [self.request(method=m, **kwargs)] on a facade.  Python raises
    [TypeError] at the call, before the callee is entered, when the unpacked
    mapping repeats the keyword given explicitly.  What the callee makes of
    the keywords it is entered with, a clash with one of its own parameter
    names included, is the callee's: it is part of [TonModule_request]. *)
Definition request (self : TonModule) (method : string) (kwargs : gmap string val)
    : M E val :=
  match kwargs !! "method" with
  | Some _ =>
      raise (mk_exc "TypeError"
               (VStr (type_error_text
                        (Multiple_values_for_keyword_argument "request" "method"))))
  | None =>
      fun w =>
        let '(r, e) := TonModule_request b (ctx self) method kwargs (eng w) in
        ({| eng := e; calls := calls w ++ [Call_module_request (ctx self) method kwargs] |}, r)
  end.

(** [TonClientBase.setup]: the result of the request is dropped. *)
Definition TonClientBase_setup (self : TonModule) (settings : gmap string val) : M E unit :=
  _ <- request self "setup" settings ;;
  ret tt.

Definition TonClientBase_version (self : TonModule) : M E val :=
  request self "version" ∅.

(** [TonClient( **config)].  The signature is [__init__(self, **config)]:
    a keyword named [self] clashes with the instance passed by position, and
    Python raises [TypeError] before the body runs. *)
Definition __init__ (config : gmap string val) : M E TonClient :=
  match config !! "self" with
  | Some _ =>
      raise (mk_exc "TypeError"
               (VStr (type_error_text (Multiple_values_for_argument "__init__" "self"))))
  | None =>
      _ctx <- call_create_context ;;
      let self := {| _ctx := _ctx;
                     base := {| ctx := _ctx |};
                     crypto := {| ctx := _ctx |};
                     queries := {| ctx := _ctx |};
                     contracts := {| ctx := _ctx |} |} in
      _ <- TonClientBase_setup (base self) (dict_merge TON_CLIENT_DEFAULT_SETUP config) ;;
      ret self
  end.

Definition destroy_context (self : TonClient) : M E unit :=
  call_destroy_context (_ctx self).

End TonClient.

End Client.

(** ** The subscription channel of the net module *)

Module Net.

(** Modelled from the spec: the net module ([subscribe_collection],
    [suspend], [resume], [unsubscribe]) and the engine that delivers the
    events are not among the sources; only [test_net.py], which drives them,
    is.  The spec has the channel deliver an event by invoking the
    subscription's callback with an OK payload, stop delivering while the
    context's net module is suspended (such events are dropped, not queued),
    deliver again after resume, and accept no callback after unsubscribe.
    An [Event h data] is one event of the network that meets the filter of
    subscription [h].  The actions are taken one after another: the model
    has no clock and no threads, and the error a second unsubscribe gives
    back to its caller is outside it. *)
Inductive SubscriptionResponseType : Type := OK | ERROR.

(** One invocation of a callback: [callback(response_data, response_type)]. *)
Record invocation : Type := {
  response_data : val;
  response_type : SubscriptionResponseType
}.

Inductive action : Type :=
| Subscribe
| Suspend
| Resume
| Event (h : nat) (data : val)
| Unsubscribe (h : nat).

Record channel : Type := {
  suspended : bool;
  live : gset nat;
  next_handle : nat;
  invocations : list (nat * invocation)
}.

Definition fresh : channel :=
  {| suspended := false; live := ∅; next_handle := 0; invocations := [] |}.

Definition step (c : channel) (a : action) : channel :=
  match a with
  | Subscribe =>
      {| suspended := suspended c; live := {[ next_handle c ]} ∪ live c;
         next_handle := S (next_handle c); invocations := invocations c |}
  | Suspend =>
      {| suspended := true; live := live c;
         next_handle := next_handle c; invocations := invocations c |}
  | Resume =>
      {| suspended := false; live := live c;
         next_handle := next_handle c; invocations := invocations c |}
  | Event h data =>
      if negb (suspended c) && bool_decide (h ∈ live c) then
        {| suspended := suspended c; live := live c; next_handle := next_handle c;
           invocations :=
             invocations c ++ [(h, {| response_data := data; response_type := OK |})] |}
      else c
  | Unsubscribe h =>
      {| suspended := suspended c; live := live c ∖ {[ h ]};
         next_handle := next_handle c; invocations := invocations c |}
  end.

Definition run (c : channel) (l : list action) : channel := fold_left step l c.

(** The invocations the callback of subscription [h] has received. *)
Definition received (h : nat) (c : channel) : list invocation :=
  map snd (filter (fun p => fst p = h) (invocations c)).

Definition ok (data : val) : invocation :=
  {| response_data := data; response_type := OK |}.

End Net.

(** ** A reference engine to run the binding against *)

Module Mock.

(** A small engine with the shape of the native library: it keeps the set of
    live context handles and the responses it has allocated and not yet
    released.  The response structure carries the success flag and what
    decoding its payload yields. *)
Record engine : Type := {
  live : gset Z;
  next_context : Z;
  heap : gmap Z (bool * result val);
  brk : Z
}.

Definition boot : engine := {| live := ∅; next_context := 1; heap := ∅; brk := 4096 |}.

Definition error_payload (code : Z) (message : string) : val :=
  VDict (<["code" := VInt code]> (<["message" := VStr message]> ∅)).

(** The engine's answers: [version] succeeds; [malformed] succeeds with a
    payload that does not decode; a retired or unknown context, and any
    other method, is an engine error. *)
Definition answer (e : engine) (context : Z) (method : InteropString) : bool * result val :=
  if negb (bool_decide (context ∈ live e)) then
    (false, Ret (error_payload 2 "Invalid context handle"))
  else if String.eqb (content method) "version" then (true, Ret (VStr "0.25.0"))
  else if String.eqb (content method) "malformed" then
    (true, Raise (mk_exc "JSONDecodeError" (VStr "Expecting value")))
  else (false, Ret (error_payload 1 "Unknown method")).

(** The envelope [_request] builds from the engine error for an unknown
    method. *)
Definition failure_envelope : gmap string val :=
  <["success" := VBool false]> (<["result" := error_payload 1 "Unknown method"]> ∅).

Definition native : Lib.NativeLib engine (bool * result val) :=
  {| Lib.tc_create_context := fun e =>
       (next_context e,
        {| live := {[ next_context e ]} ∪ live e; next_context := next_context e + 1;
           heap := heap e; brk := brk e |});
     Lib.tc_destroy_context := fun h e =>
       {| live := live e ∖ {[ h ]}; next_context := next_context e;
          heap := heap e; brk := brk e |};
     Lib.tc_json_request := fun h method params e =>
       (brk e,
        {| live := live e; next_context := next_context e;
           heap := <[brk e := answer e h method]> (heap e); brk := brk e + 1 |});
     Lib.tc_read_json_response := fun p e =>
       default (false, Ret VNone) (heap e !! p);
     Lib.tc_destroy_json_response := fun p e =>
       {| live := live e; next_context := next_context e;
          heap := delete p (heap e); brk := brk e |} |}%Z.

(** A stand-in for [json.dumps], enough for the parameters used below. *)
Definition dumps (v : val) : string :=
  match v with
  | VStr s => s
  | _ => "{}"
  end.

Definition runtime : Lib.Runtime engine (bool * result val) :=
  {| Lib.json_dumps := dumps;
     Lib.LoadLibrary := fun _ => Ret native;
     Lib.response_type := {| Lib.is_success := fst; Lib.json := snd |} |}.

(** The same interpreter on a machine where the shared object is missing:
    [LoadLibrary] raises [OSError]. *)
Definition runtime_without_library : Lib.Runtime engine (bool * result val) :=
  {| Lib.json_dumps := dumps;
     Lib.LoadLibrary := fun path =>
       Raise (mk_exc "OSError" (VStr (path ++ ": cannot open shared object file")));
     Lib.response_type := {| Lib.is_success := fst; Lib.json := snd |} |}.

(** An engine whose handles start at the top of the 32-bit range, seen
    through the default [c_int] return type. *)
Definition native_high : Lib.NativeLib engine (bool * result val) :=
  {| Lib.tc_create_context := fun e => (c_int 4294967295, snd (Lib.tc_create_context native e));
     Lib.tc_destroy_context := Lib.tc_destroy_context native;
     Lib.tc_json_request := Lib.tc_json_request native;
     Lib.tc_read_json_response := Lib.tc_read_json_response native;
     Lib.tc_destroy_json_response := Lib.tc_destroy_json_response native |}.

Definition runtime_high : Lib.Runtime engine (bool * result val) :=
  {| Lib.json_dumps := dumps;
     Lib.LoadLibrary := fun _ => Ret native_high;
     Lib.response_type := {| Lib.is_success := fst; Lib.json := snd |} |}.

(** A [TonModule.request] that the engine fails whatever the context. *)
Definition bindings_failing : Client.Bindings engine :=
  {| Client.tc_create_context := Lib.tc_create_context native;
     Client.tc_destroy_context := fun h e => (Ret tt, Lib.tc_destroy_context native h e);
     Client.TonModule_request := fun h method kwargs e =>
       (Raise (mk_exc "Exception" (error_payload 3 "Invalid config")), e) |}.

Definition linux : Lib.Platform :=
  {| Lib.platform_system := "Linux"; Lib.BASE_DIR := "/opt/tonsdk"; Lib.os_sep := "/"%char |}.

Definition start : World engine := {| eng := boot; calls := [] |}.

(** The world after [TonClient()] on [linux], and the client it returned. *)
Definition session : World engine := fst (Lib.new_client runtime linux start).

Definition client : Lib.TonClient engine (bool * result val) :=
  {| Lib.lib := native; Lib.context := 1 |}.

(** The same engine behind [tonsdk.bindings.lib] and [tonsdk.module]. *)
Definition bindings : Client.Bindings engine :=
  {| Client.tc_create_context := Lib.tc_create_context native;
     Client.tc_destroy_context := fun h e => (Ret tt, Lib.tc_destroy_context native h e);
     Client.TonModule_request := fun h method kwargs e =>
       (if bool_decide (h ∈ live e) then Ret VNone
        else Raise (mk_exc "Exception" (error_payload 2 "Invalid context handle")), e) |}.


(** A wrapper that answers a handle that is not live with a typed error,
    as the spec allows. *)
Definition bindings_strict : Client.Bindings engine :=
  {| Client.tc_create_context := Lib.tc_create_context native;
     Client.tc_destroy_context := fun h e =>
       (if bool_decide (h ∈ live e) then Ret tt
        else Raise (mk_exc "Exception" (error_payload 2 "Invalid context handle")),
        Lib.tc_destroy_context native h e);
     Client.TonModule_request := Client.TonModule_request bindings |}.

(** The wording of CPython up to 3.9. *)
Definition type_error_text (e : Client.call_error) : string :=
  match e with
  | Client.Multiple_values_for_argument callee parameter =>
      callee ++ "() got multiple values for argument '" ++ parameter ++ "'"
  | Client.Multiple_values_for_keyword_argument callee keyword =>
      callee ++ "() got multiple values for keyword argument '" ++ keyword ++ "'"
  end.

End Mock.

Example mock_session_client : snd (Lib.new_client Mock.runtime Mock.linux Mock.start) = Ret Mock.client.
Proof. vm_compute. reflexivity. Qed.

Example create_context_wraps_to_32_bits :
  c_uint32 (-1) = 4294967295%Z /\ c_uint32 (2 ^ 32 + 7) = 7%Z.
Proof. split; reflexivity. Qed.

Example mock_version :
  outcome (Lib.version Mock.runtime Mock.client) Mock.session = Ret (VStr "0.25.0").
Proof. vm_compute. reflexivity. Qed.

(** * Properties *)

(** ** Strings and paths *)

Lemma append_assoc (a b c : string) : ((a ++ b) ++ c = a ++ (b ++ c))%string.
Proof.
  induction a as [|x a IH]; [reflexivity|].
  change (String x ((a ++ b) ++ c) = String x (a ++ (b ++ c)))%string.
  now rewrite IH.
Qed.

Lemma endswith_refl (s : string) : endswith s s = true.
Proof. destruct s; simpl; [reflexivity | now rewrite Ascii.eqb_refl, String.eqb_refl]. Qed.

Lemma endswith_app (x y : string) : endswith (x ++ y) y = true.
Proof.
  induction x as [|c x IH].
  - apply endswith_refl.
  - change (endswith (String c (x ++ y)) y = true). simpl.
    rewrite IH. now match goal with |- (if ?b then _ else _) = _ => destruct b end.
Qed.

Lemma os_path_join_suffix (sep : ascii) (a b : string) :
  exists x, os_path_join sep a b = (x ++ b)%string.
Proof.
  unfold os_path_join.
  destruct (startswith_char b sep); [now exists EmptyString|].
  destruct (_ || _); [now exists a|].
  exists (a ++ String sep EmptyString)%string. now rewrite append_assoc.
Qed.

Lemma get_lib_basename_ext (p : Lib.Platform) (ext : string) :
  Lib.lib_ext_dict !! lower (Lib.platform_system p) = Some ext ->
  exists path, Lib.get_lib_basename p = Ret path /\ endswith path ("." ++ ext) = true.
Proof.
  intros Hext. unfold Lib.get_lib_basename. rewrite Hext.
  eexists; split; [reflexivity|].
  destruct (os_path_join_suffix (Lib.os_sep p) (Lib.LIB_DIR p)
              (Lib.LIB_FILENAME ++ "." ++ ext)) as [x ->].
  rewrite <- append_assoc. apply endswith_app.
Qed.

Lemma lib_ext_dict_None (plt : string) :
  plt <> "windows" -> plt <> "darwin" -> plt <> "linux" -> Lib.lib_ext_dict !! plt = None.
Proof.
  intros Hw Hd Hl. unfold Lib.lib_ext_dict.
  rewrite !lookup_insert_ne by congruence. apply lookup_empty.
Qed.

(** C4: library resolution maps the lower-cased platform name to a path
    ending in [.dll] on windows, [.dylib] on darwin and [.so] on linux; for
    every other platform name it raises a [RuntimeError] whose message names
    the platform, the import of the module fails with it, and creating a
    client makes no call at all: no context is created. *)
Theorem get_lib_basename_by_platform (p : Lib.Platform) :
  (lower (Lib.platform_system p) = "windows" ->
     exists path, Lib.get_lib_basename p = Ret path /\ endswith path ".dll" = true) /\
  (lower (Lib.platform_system p) = "darwin" ->
     exists path, Lib.get_lib_basename p = Ret path /\ endswith path ".dylib" = true) /\
  (lower (Lib.platform_system p) = "linux" ->
     exists path, Lib.get_lib_basename p = Ret path /\ endswith path ".so" = true) /\
  (lower (Lib.platform_system p) <> "windows" ->
   lower (Lib.platform_system p) <> "darwin" ->
   lower (Lib.platform_system p) <> "linux" ->
     let e := mk_exc "RuntimeError"
                (VStr ("No library for current platform " ++ dquote
                       ++ capitalize (lower (Lib.platform_system p)) ++ dquote)) in
     Lib.get_lib_basename p = Raise e /\
     forall (E R : Type) (rt : Lib.Runtime E R) (w : World E),
       Lib.new_client rt p w = (w, Raise e)).
Proof.
  repeat split.
  - intros H. apply get_lib_basename_ext. now rewrite H.
  - intros H. apply get_lib_basename_ext. now rewrite H.
  - intros H. apply get_lib_basename_ext. now rewrite H.
  - unfold Lib.get_lib_basename. now rewrite lib_ext_dict_None.
  - intros E R rt w. unfold Lib.new_client, Lib.import_, bind, lift, Lib.get_lib_basename.
    now rewrite lib_ext_dict_None.
Qed.

Example get_lib_basename_linux :
  Lib.get_lib_basename Mock.linux = Ret "/opt/tonsdk/bin/ton-rust-client-0.25.0.so".
Proof. reflexivity. Qed.

Example get_lib_basename_java :
  Lib.get_lib_basename
    {| Lib.platform_system := "Java"; Lib.BASE_DIR := "/opt/tonsdk"; Lib.os_sep := "/"%char |}
  = Raise (mk_exc "RuntimeError" (VStr ("No library for current platform " ++ dquote ++ "Java" ++ dquote))).
Proof. reflexivity. Qed.

(** ** The format adapter *)

(** C9: [_str_type_dict] wraps the string, unchanged, under the key named by
    the format tag for the tags base64, hex and text, and raises [ValueError]
    for every other tag. *)
Theorem str_type_dict_by_format {E R : Type} (self : Lib.TonClient E R) (s fmt : string) :
  (fmt = "base64" -> Lib._str_type_dict self s fmt = Ret {[ "base64" := VStr s ]}) /\
  (fmt = "hex" -> Lib._str_type_dict self s fmt = Ret {[ "hex" := VStr s ]}) /\
  (fmt = "text" -> Lib._str_type_dict self s fmt = Ret {[ "text" := VStr s ]}) /\
  (fmt <> "base64" -> fmt <> "hex" -> fmt <> "text" ->
     Lib._str_type_dict self s fmt
     = Raise (mk_exc "ValueError" (VStr "One of 'base64, hex, text' should be provided"))).
Proof.
  unfold Lib._str_type_dict, Lib.TYPE_BASE64, Lib.TYPE_HEX, Lib.TYPE_TEXT.
  repeat split.
  - now intros ->.
  - now intros ->.
  - now intros ->.
  - intros Hb Hh Ht.
    apply String.eqb_neq in Hb, Hh, Ht. now rewrite Hb, Hh, Ht.
Qed.

Example str_type_dict_hex :
  Lib._str_type_dict Mock.client "c0ffee" Lib.TYPE_HEX = Ret {[ "hex" := VStr "c0ffee" ]}.
Proof. reflexivity. Qed.

Example str_type_dict_upper_case_tag :
  Lib._str_type_dict Mock.client "c0ffee" "HEX"
  = Raise (mk_exc "ValueError" (VStr "One of 'base64, hex, text' should be provided")).
Proof. reflexivity. Qed.

(** ** The low-level request *)

Lemma made_app {E A : Type} (m : M E A) (w : World E) (l : list call) :
  calls (fst (m w)) = (calls w ++ l)%list -> made m w = l.
Proof. unfold made. intros ->. apply drop_app_length. Qed.

Section Request.
Context {E R : Type}.
Variable rt : Lib.Runtime E R.
Variable self : Lib.TonClient E R.
Variables (method_name : string) (params : val).

Let method' := Lib.request_method method_name.
Let params' := Lib.request_params rt params.

(** What one run of [_request] does, step by step: the request and the read
    always happen; the release and the envelope only when the payload
    decodes. *)
Lemma _request_run (w : World E) :
  Lib._request rt self method_name params w =
  let p := Lib.response_ptr rt self method_name params w in
  let e := snd (Lib.tc_json_request (Lib.lib self) (Lib.context self) method' params' (eng w)) in
  let read := Lib.response_read rt self method_name params w in
  match Lib.json (Lib.response_type rt) read with
  | Ret v =>
      ({| eng := Lib.tc_destroy_json_response (Lib.lib self) p e;
          calls := calls w ++ [Call_json_request (Lib.context self) method' params' p;
                               Call_read_json_response p;
                               Call_destroy_json_response p] |},
       Ret (<["success" := VBool (Lib.is_success (Lib.response_type rt) read)]>
              (<["result" := v]> ∅)))
  | Raise x =>
      ({| eng := e;
          calls := calls w ++ [Call_json_request (Lib.context self) method' params' p;
                               Call_read_json_response p] |},
       Raise x)
  end.
Proof.
  unfold Lib._request, Lib.response_ptr, Lib.response_read, bind, lift, ret,
    Lib.ffi_json_request, Lib.ffi_read_json_response, Lib.ffi_destroy_json_response.
  subst method' params'. unfold Lib.request_method, Lib.request_params.
  destruct (Lib.tc_json_request _ _ _ _ _) as [p e]; simpl.
  destruct (Lib.json _ _) as [v|x]; simpl; now rewrite <- ?app_assoc.
Qed.

(** What one run of [request] does. *)
Lemma request_run (raise_exception : bool) (w : World E) :
  Lib.request rt self method_name params raise_exception w =
  let read := Lib.response_read rt self method_name params w in
  (fst (Lib._request rt self method_name params w),
   match Lib.json (Lib.response_type rt) read with
   | Ret v =>
       if raise_exception && negb (Lib.is_success (Lib.response_type rt) read)
       then Raise (mk_exc "Exception" v)
       else Ret v
   | Raise x => Raise x
   end).
Proof.
  unfold Lib.request, bind at 1. rewrite _request_run. simpl.
  destruct (Lib.json _ _) as [v|x]; [|reflexivity].
  unfold bind, lift, ret, raise, getitem; simpl.
  destruct raise_exception; simpl; [|reflexivity].
  now destruct (Lib.is_success _ _).
Qed.

End Request.

(** The foreign calls of one run of [_request], in order: the request, the
    read on the pointer the engine returned and, when the payload decodes,
    the release of that pointer as the last call before returning.  The
    release is written after the read with no [try]/[finally] around them,
    so a read that raises leaves [_request] before the release is reached. *)
Theorem request_releases_response_when_decoded {E R : Type} (rt : Lib.Runtime E R)
    (self : Lib.TonClient E R) (method_name : string) (params : val) (w : World E) :
  made (Lib._request rt self method_name params) w =
  Call_json_request (Lib.context self) (Lib.request_method method_name)
      (Lib.request_params rt params) (Lib.response_ptr rt self method_name params w)
  :: Call_read_json_response (Lib.response_ptr rt self method_name params w)
  :: match Lib.json (Lib.response_type rt) (Lib.response_read rt self method_name params w) with
     | Ret _ => [Call_destroy_json_response (Lib.response_ptr rt self method_name params w)]
     | Raise _ => []
     end.
Proof.
  apply made_app. rewrite _request_run. simpl.
  now destruct (Lib.json _ _).
Qed.

(** C5, the code at the failing input: every response the engine hands
    out has to be released, on every way out of [_request]; here the engine
    answers [malformed] with a payload that does not decode, [_request]
    raises after the read without having made the release call, and the
    response stays allocated in the engine. *)
Lemma request_leaks_response_on_decode_failure :
  made (Lib._request Mock.runtime Mock.client "malformed" VNone) Mock.session
  = [Call_json_request 1%Z (from_string "malformed") (from_string "{}") 4096%Z;
     Call_read_json_response 4096%Z]
  /\ outcome (Lib._request Mock.runtime Mock.client "malformed" VNone) Mock.session
     = Raise (mk_exc "JSONDecodeError" (VStr "Expecting value"))
  /\ is_Some (Mock.heap (eng (fst (Lib._request Mock.runtime Mock.client "malformed" VNone
                                     Mock.session))) !! 4096%Z).
Proof.
  split; [|split].
  - vm_compute. reflexivity.
  - vm_compute. reflexivity.
  - vm_compute. eexists. reflexivity.
Qed.

Example request_releases_on_success :
  made (Lib._request Mock.runtime Mock.client "version" VNone) Mock.session
  = [Call_json_request 1%Z (from_string "version") (from_string "{}") 4096%Z;
     Call_read_json_response 4096%Z; Call_destroy_json_response 4096%Z]
  /\ Mock.heap (eng (fst (Lib._request Mock.runtime Mock.client "version" VNone Mock.session)))
     = ∅.
Proof. split; vm_compute; reflexivity. Qed.

(** C6 (as amended): the envelope [_request] returns has exactly the two
    keys [success] and [result]: the flag read from the response, and the
    decoded payload under [result] whichever the flag is; it has no [error]
    key. *)
Theorem request_envelope_shape {E R : Type} (rt : Lib.Runtime E R)
    (self : Lib.TonClient E R) (method_name : string) (params : val) (w : World E)
    (env : gmap string val) :
  outcome (Lib._request rt self method_name params) w = Ret env ->
  exists v,
    Lib.json (Lib.response_type rt) (Lib.response_read rt self method_name params w) = Ret v
    /\ env !! "success"
       = Some (VBool (Lib.is_success (Lib.response_type rt)
                        (Lib.response_read rt self method_name params w)))
    /\ env !! "result" = Some v
    /\ env !! "error" = None
    /\ dom env = {[ "success"; "result" ]}.
Proof.
  unfold outcome. rewrite _request_run. simpl.
  destruct (Lib.json _ _) as [v|x]; simpl; [|discriminate].
  intros [= <-]. exists v. split; [reflexivity|].
  split; [apply lookup_insert_eq|].
  split; [now rewrite lookup_insert_ne, lookup_insert_eq|].
  split; [now rewrite !lookup_insert_ne, lookup_empty|].
  rewrite !dom_insert_L, dom_empty_L. set_solver.
Qed.

Lemma request_envelope_shape_witness :
  outcome (Lib._request Mock.runtime Mock.client "crypto.unknown" VNone) Mock.session
  = Ret Mock.failure_envelope
  /\ exists v,
    Lib.json (Lib.response_type Mock.runtime)
      (Lib.response_read Mock.runtime Mock.client "crypto.unknown" VNone Mock.session) = Ret v
    /\ Mock.failure_envelope !! "success"
       = Some (VBool (Lib.is_success (Lib.response_type Mock.runtime)
                        (Lib.response_read Mock.runtime Mock.client "crypto.unknown" VNone
                           Mock.session)))
    /\ Mock.failure_envelope !! "result" = Some v
    /\ Mock.failure_envelope !! "error" = None
    /\ dom Mock.failure_envelope = {[ "success"; "result" ]}.
Proof.
  split; [vm_compute; reflexivity|].
  apply (request_envelope_shape Mock.runtime Mock.client "crypto.unknown" VNone Mock.session).
  vm_compute. reflexivity.
Defined.

(** C6, the claim as stated fails: on an engine error the envelope's
    [success] is false, yet the payload sits under [result] and there is no
    [error] entry. *)
Lemma request_envelope_failure_has_result_no_error :
  exists env,
    outcome (Lib._request Mock.runtime Mock.client "crypto.unknown" VNone) Mock.session
    = Ret env
    /\ env !! "success" = Some (VBool false)
    /\ env !! "result" = Some (Mock.error_payload 1 "Unknown method")
    /\ env !! "error" = None.
Proof.
  eexists. split; [vm_compute; reflexivity|].
  split; [|split]; vm_compute; reflexivity.
Qed.

(** ** The request operation *)

(** C1 (as amended): when the response read for a request has
    [is_success] false, [request] with its default [raise_exception=True]
    raises the built-in [Exception], and the argument of that exception is
    the engine's decoded payload, unchanged.  The class is the generic one:
    the module defines no error type of its own. *)
Theorem request_raises_exception_with_engine_payload {E R : Type} (rt : Lib.Runtime E R)
    (self : Lib.TonClient E R) (method : string) (params : val) (w : World E)
    (payload : val) :
  Lib.is_success (Lib.response_type rt) (Lib.response_read rt self method params w) = false ->
  Lib.json (Lib.response_type rt) (Lib.response_read rt self method params w) = Ret payload ->
  outcome (Lib.request rt self method params true) w = Raise (mk_exc "Exception" payload).
Proof.
  intros Hfail Hjson. unfold outcome. rewrite request_run. simpl.
  now rewrite Hjson, Hfail.
Qed.

Lemma request_raises_exception_with_engine_payload_witness :
  outcome (Lib.request Mock.runtime Mock.client "crypto.unknown" VNone true) Mock.session
  = Raise (mk_exc "Exception" (Mock.error_payload 1 "Unknown method")).
Proof.
  apply (request_raises_exception_with_engine_payload Mock.runtime Mock.client
           "crypto.unknown" VNone Mock.session);
    vm_compute; reflexivity.
Defined.

(** C1, the claim as stated fails: the error raised for an engine failure
    is not a typed client error but the generic [Exception]. *)
Lemma request_failure_is_generic_exception :
  exists e,
    outcome (Lib.request Mock.runtime Mock.client "crypto.unknown" VNone true) Mock.session
    = Raise e
    /\ exc_class e = "Exception"
    /\ generic_failure e = true
    /\ exc_arg e = Mock.error_payload 1 "Unknown method".
Proof.
  eexists. split; [vm_compute; reflexivity|].
  repeat split.
Qed.

(** C10: with [raise_exception=False], [request] returns the payload of
    the response whatever its success flag says; an engine error comes back
    as an ordinary return value. *)
Theorem request_without_raise_returns_payload {E R : Type} (rt : Lib.Runtime E R)
    (self : Lib.TonClient E R) (method : string) (params : val) (w : World E)
    (success : bool) (payload : val) :
  Lib.is_success (Lib.response_type rt) (Lib.response_read rt self method params w) = success ->
  Lib.json (Lib.response_type rt) (Lib.response_read rt self method params w) = Ret payload ->
  outcome (Lib.request rt self method params false) w = Ret payload
  /\ outcome (Lib._request rt self method params) w
     = Ret (<["success" := VBool success]> (<["result" := payload]> ∅)).
Proof.
  intros Hflag Hjson. unfold outcome. rewrite request_run, _request_run. simpl.
  now rewrite Hjson, Hflag.
Qed.

Lemma request_without_raise_returns_payload_witness :
  outcome (Lib.request Mock.runtime Mock.client "crypto.unknown" VNone false) Mock.session
  = Ret (Mock.error_payload 1 "Unknown method")
  /\ outcome (Lib._request Mock.runtime Mock.client "crypto.unknown" VNone) Mock.session
     = Ret (<["success" := VBool false]>
              (<["result" := Mock.error_payload 1 "Unknown method"]> ∅)).
Proof.
  apply (request_without_raise_returns_payload Mock.runtime Mock.client
           "crypto.unknown" VNone Mock.session false);
    vm_compute; reflexivity.
Defined.

(** ** Requests after destruction *)

(** C2 (as amended): destroying a context only forwards the handle to the
    engine's destroy entry point, in [lib.py] and in [client.py] alike; the
    client keeps the handle, and a later request hands that same handle to
    the engine.  What the request returns or raises is decided by the
    engine's response alone: the payload when the response is a success or
    [raise_exception] is off, the generic [Exception] carrying the payload
    when the engine reports a failure.  The binding has no error of its own
    for a retired context. *)
Theorem request_after_destroy_is_forwarded {E R : Type} (rt : Lib.Runtime E R)
    (self : Lib.TonClient E R) (method : string) (params : val) (raise_exception : bool)
    (w : World E) :
  made (Lib._destroy_context self (Lib.context self)) w
    = [Call_destroy_context (Lib.context self)]
  /\ (forall (b : Client.Bindings E) (c : Client.TonClient),
        made (Client.destroy_context b c) w = [Call_bindings_destroy_context (Client._ctx c)])
  /\ (exists rest,
        made (Lib.request rt self method params raise_exception) (Lib.after_destroy self w)
        = Call_json_request (Lib.context self) (Lib.request_method method)
            (Lib.request_params rt params)
            (Lib.response_ptr rt self method params (Lib.after_destroy self w)) :: rest)
  /\ outcome (Lib.request rt self method params raise_exception) (Lib.after_destroy self w)
     = match Lib.json (Lib.response_type rt)
               (Lib.response_read rt self method params (Lib.after_destroy self w)) with
       | Ret v =>
           if raise_exception
              && negb (Lib.is_success (Lib.response_type rt)
                         (Lib.response_read rt self method params (Lib.after_destroy self w)))
           then Raise (mk_exc "Exception" v)
           else Ret v
       | Raise x => Raise x
       end.
Proof.
  split; [|split; [|split]].
  - apply made_app. reflexivity.
  - intros b c. apply made_app. reflexivity.
  - destruct (Lib.json (Lib.response_type rt)
                (Lib.response_read rt self method params (Lib.after_destroy self w)))
      as [v|x] eqn:Hjson;
      eexists; apply made_app; rewrite request_run; cbn [fst];
      rewrite _request_run; cbn zeta; rewrite Hjson; reflexivity.
  - unfold outcome. now rewrite request_run.
Qed.

(** C2, the claim as stated fails: against an engine that does reject a
    retired handle, a request after destruction raises the generic
    [Exception] holding the engine's payload, not a ContextInvalid error;
    with [raise_exception=False] the same request returns normally; and the
    handle the request used is the one the client had before. *)
Lemma request_after_destroy_is_not_context_invalid :
  exists e,
    outcome (Lib.request Mock.runtime Mock.client "version" VNone true)
      (Lib.after_destroy Mock.client Mock.session) = Raise e
    /\ exc_class e = "Exception"
    /\ String.eqb (exc_class e) "ContextInvalid" = false
    /\ outcome (Lib.request Mock.runtime Mock.client "version" VNone false)
         (Lib.after_destroy Mock.client Mock.session)
       = Ret (Mock.error_payload 2 "Invalid context handle")
    /\ made (Lib.request Mock.runtime Mock.client "version" VNone true)
         (Lib.after_destroy Mock.client Mock.session)
       = [Call_json_request (Lib.context Mock.client) (from_string "version")
            (from_string "{}") 4096%Z;
          Call_read_json_response 4096%Z; Call_destroy_json_response 4096%Z].
Proof.
  eexists. split; [vm_compute; reflexivity|].
  repeat split; vm_compute; reflexivity.
Qed.

(** ** Default configuration *)

(** C7 (as amended): the record of [client.py] holds exactly the eight
    documented defaults, with the endpoints as a list under [servers]; the
    record of the same name in [lib.py] holds the same seven other entries
    and, in place of an endpoint list, the single base URL under [baseUrl]. *)
Theorem default_setup_records :
  dom Client.TON_CLIENT_DEFAULT_SETUP
  = {[ "servers"; "messageRetriesCount"; "messageExpirationTimeout";
       "messageExpirationTimeoutGrowFactor"; "messageProcessingTimeout";
       "messageProcessingTimeoutGrowFactor"; "waitForTimeout"; "accessKey" ]}
  /\ Client.TON_CLIENT_DEFAULT_SETUP !! "servers" = Some (VList [VStr "http://localhost"])
  /\ Client.TON_CLIENT_DEFAULT_SETUP !! "messageRetriesCount" = Some (VInt 1)
  /\ Client.TON_CLIENT_DEFAULT_SETUP !! "messageExpirationTimeout" = Some (VInt 50000)
  /\ Client.TON_CLIENT_DEFAULT_SETUP !! "messageExpirationTimeoutGrowFactor"
     = Some (VFloat 1.5)
  /\ Client.TON_CLIENT_DEFAULT_SETUP !! "messageProcessingTimeout" = Some (VInt 50000)
  /\ Client.TON_CLIENT_DEFAULT_SETUP !! "messageProcessingTimeoutGrowFactor"
     = Some (VFloat 1.5)
  /\ Client.TON_CLIENT_DEFAULT_SETUP !! "waitForTimeout" = Some (VInt 30000)
  /\ Client.TON_CLIENT_DEFAULT_SETUP !! "accessKey" = Some (VStr "")
  /\ delete "baseUrl" Lib.TON_CLIENT_DEFAULT_SETUP
     = delete "servers" Client.TON_CLIENT_DEFAULT_SETUP
  /\ Lib.TON_CLIENT_DEFAULT_SETUP !! "baseUrl" = Some (VStr "net.ton.dev")
  /\ Lib.TON_CLIENT_DEFAULT_SETUP !! "servers" = None.
Proof. repeat split; vm_compute; reflexivity. Qed.

(** C7, the claim as stated fails on the record of [lib.py]: its eight
    entries hold no endpoint list; the endpoint is one string. *)
Lemma lib_default_setup_has_no_endpoint_list :
  dom Lib.TON_CLIENT_DEFAULT_SETUP
  = {[ "baseUrl"; "messageRetriesCount"; "messageExpirationTimeout";
       "messageExpirationTimeoutGrowFactor"; "messageProcessingTimeout";
       "messageProcessingTimeoutGrowFactor"; "waitForTimeout"; "accessKey" ]}
  /\ Lib.TON_CLIENT_DEFAULT_SETUP !! "baseUrl" = Some (VStr "net.ton.dev")
  /\ forallb (fun kv => match snd kv with VList _ => false | _ => true end)
       (map_to_list Lib.TON_CLIENT_DEFAULT_SETUP) = true.
Proof. repeat split; vm_compute; reflexivity. Qed.

(** ** Client creation *)

Lemma dict_merge_override (a b : gmap string val) (k : string) (v : val) :
  b !! k = Some v -> dict_merge a b !! k = Some v.
Proof. intros H. unfold dict_merge. now apply lookup_union_Some_l. Qed.

Lemma dict_merge_default (a b : gmap string val) (k : string) :
  b !! k = None -> dict_merge a b !! k = a !! k.
Proof. intros H. unfold dict_merge. now apply lookup_union_r. Qed.

(** C3 (as amended): for every configuration that has no entry named
    [self] or [method], creating the client of [client.py] makes exactly two
    calls: it creates a context, then issues one [setup] request on that
    context whose parameters are the caller's entries merged over the
    defaults: a key the caller gives keeps the caller's value, a key the
    caller omits has the default's. *)
Theorem client_init_merges_and_calls_setup {E : Type}
    (type_error_text : Client.call_error -> string) (b : Client.Bindings E)
    (config : gmap string val) (w : World E) :
  config !! "self" = None ->
  config !! "method" = None ->
  made (Client.__init__ type_error_text b config) w
  = [Call_bindings_create_context (fst (Client.tc_create_context b (eng w)));
     Call_module_request (fst (Client.tc_create_context b (eng w))) "setup"
       (dict_merge Client.TON_CLIENT_DEFAULT_SETUP config)]
  /\ (forall k v, config !! k = Some v ->
        dict_merge Client.TON_CLIENT_DEFAULT_SETUP config !! k = Some v)
  /\ (forall k, config !! k = None ->
        dict_merge Client.TON_CLIENT_DEFAULT_SETUP config !! k
        = Client.TON_CLIENT_DEFAULT_SETUP !! k).
Proof.
  intros Hs Hm. split; [|split].
  - apply made_app.
    unfold Client.__init__. rewrite Hs.
    unfold Client.TonClientBase_setup, Client.request,
      Client.call_create_context, bind, ret.
    rewrite dict_merge_default by exact Hm.
    change (Client.TON_CLIENT_DEFAULT_SETUP !! "method") with (@None val).
    destruct (Client.tc_create_context b (eng w)) as [h e]; simpl.
    destruct (Client.TonModule_request b h _ _ e) as [[r|x] e']; simpl;
      now rewrite <- app_assoc.
  - intros k v. apply dict_merge_override.
  - intros k. apply dict_merge_default.
Qed.

Lemma client_init_merges_and_calls_setup_witness :
  made (Client.__init__ Mock.type_error_text Mock.bindings
          {[ "servers" := VList [VStr "net.ton.dev"] ]}) Mock.start
  = [Call_bindings_create_context 1%Z;
     Call_module_request 1%Z "setup"
       (<["servers" := VList [VStr "net.ton.dev"]]> Client.TON_CLIENT_DEFAULT_SETUP)].
Proof.
  refine (eq_trans
            (proj1 (client_init_merges_and_calls_setup Mock.type_error_text Mock.bindings
                      {[ "servers" := VList [VStr "net.ton.dev"] ]} Mock.start _ _)) _).
  - vm_compute. reflexivity.
  - vm_compute. reflexivity.
  - vm_compute. reflexivity.
Defined.

(** C3, the claim as stated fails on two configurations.  An entry named
    [method] collides with the keyword of the [setup] request: creation
    raises [TypeError] after the context is created and no [setup] call is
    issued.  An entry named [self] collides with the instance the
    constructor receives: creation raises [TypeError] before its body runs,
    and no call is made at all. *)
Lemma client_init_method_entry_raises :
  made (Client.__init__ Mock.type_error_text Mock.bindings {[ "method" := VStr "version" ]})
    Mock.start
  = [Call_bindings_create_context 1%Z]
  /\ outcome (Client.__init__ Mock.type_error_text Mock.bindings
                {[ "method" := VStr "version" ]}) Mock.start
     = Raise (mk_exc "TypeError"
                (VStr "request() got multiple values for keyword argument 'method'"))
  /\ made (Client.__init__ Mock.type_error_text Mock.bindings {[ "self" := VInt 1 ]})
       Mock.start
     = []
  /\ outcome (Client.__init__ Mock.type_error_text Mock.bindings {[ "self" := VInt 1 ]})
       Mock.start
     = Raise (mk_exc "TypeError"
                (VStr "__init__() got multiple values for argument 'self'")).
Proof. repeat split; vm_compute; reflexivity. Qed.

(** In [lib.py] creation makes the one foreign call that creates the
    context; [setup] is left to the caller. *)
Example lib_init_creates_context_only :
  made (Lib.new_client Mock.runtime Mock.linux) Mock.start = [Call_create_context 1%Z].
Proof. vm_compute. reflexivity. Qed.

(** ** Suspending and resuming subscriptions *)

Lemma run_app (c : Net.channel) (l k : list Net.action) :
  Net.run c (l ++ k)%list = Net.run (Net.run c l) k.
Proof. apply fold_left_app. Qed.

Lemma run_events_suspended (h : nat) (l : list val) (c : Net.channel) :
  Net.suspended c = true -> Net.run c (map (Net.Event h) l) = c.
Proof.
  intros Hs. induction l as [|d l IH]; [reflexivity|].
  change (Net.run (Net.step c (Net.Event h d)) (map (Net.Event h) l) = c).
  replace (Net.step c (Net.Event h d)) with c; [exact IH|].
  unfold Net.step. now rewrite Hs.
Qed.

Lemma received_snoc (h : nat) (c : Net.channel) (d : val) :
  Net.suspended c = false -> h ∈ Net.live c ->
  Net.received h (Net.step c (Net.Event h d)) = (Net.received h c ++ [Net.ok d])%list.
Proof.
  intros Hs Hl. unfold Net.step. rewrite Hs, bool_decide_eq_true_2 by exact Hl.
  unfold Net.received; simpl.
  rewrite filter_app, map_app. f_equal.
  rewrite filter_cons_True by reflexivity. reflexivity.
Qed.

Lemma run_events_active (h : nat) (l : list val) (c : Net.channel) :
  Net.suspended c = false -> h ∈ Net.live c ->
  Net.received h (Net.run c (map (Net.Event h) l)) = (Net.received h c ++ map Net.ok l)%list.
Proof.
  revert c. induction l as [|d l IH]; intros c Hs Hl.
  - simpl. now rewrite app_nil_r.
  - change (Net.received h (Net.run (Net.step c (Net.Event h d)) (map (Net.Event h) l))
            = (Net.received h c ++ Net.ok d :: map Net.ok l)%list).
    rewrite IH.
    + rewrite received_snoc by assumption. now rewrite <- app_assoc.
    + unfold Net.step. now rewrite Hs, bool_decide_eq_true_2 by exact Hl.
    + unfold Net.step. now rewrite Hs, bool_decide_eq_true_2 by exact Hl.
Qed.

(** C8: for a live subscription on a channel that is delivering, the
    events that occur between suspend and resume reach the callback neither
    then nor after resume; the events after resume are delivered, each as
    one OK invocation, in order. *)
Theorem suspended_events_are_dropped (c : Net.channel) (h : nat) (during after : list val) :
  Net.suspended c = false -> h ∈ Net.live c ->
  Net.received h (Net.run c (Net.Suspend :: map (Net.Event h) during)) = Net.received h c
  /\ Net.received h
       (Net.run c (Net.Suspend :: map (Net.Event h) during
                   ++ Net.Resume :: map (Net.Event h) after)%list)
     = (Net.received h c ++ map Net.ok after)%list.
Proof.
  intros Hs Hl. split.
  - simpl. now rewrite run_events_suspended.
  - change (Net.Suspend :: map (Net.Event h) during ++ Net.Resume :: map (Net.Event h) after)%list
      with ((Net.Suspend :: map (Net.Event h) during)
            ++ Net.Resume :: map (Net.Event h) after)%list.
    rewrite run_app. simpl Net.run at 2.
    rewrite run_events_suspended by reflexivity.
    simpl. now rewrite run_events_active.
Qed.

(** The scenario of the claim: one qualifying event while suspended, one
    after resume; the callback is invoked once, with the second event. *)
Lemma suspended_events_are_dropped_witness :
  Net.received 0
    (Net.run Net.fresh
       [Net.Subscribe; Net.Suspend; Net.Event 0 (VStr "first"); Net.Resume;
        Net.Event 0 (VStr "second")])
  = [Net.ok (VStr "second")].
Proof.
  exact (proj2 (suspended_events_are_dropped (Net.run Net.fresh [Net.Subscribe]) 0
                  [VStr "first"] [VStr "second"] eq_refl
                  ltac:(vm_compute; set_solver))).
Defined.

(** The run of [test_suspend_resume]: a first transaction before the
    suspension, a second during it, a third after resume; the callback has
    one invocation when the test resumes and two at the end. *)
Example test_suspend_resume :
  length (Net.received 0
            (Net.run Net.fresh
               [Net.Subscribe; Net.Event 0 (VStr "t1"); Net.Suspend;
                Net.Event 0 (VStr "t2")])) = 1
  /\ Net.received 0
       (Net.run Net.fresh
          [Net.Subscribe; Net.Event 0 (VStr "t1"); Net.Suspend; Net.Event 0 (VStr "t2");
           Net.Resume; Net.Event 0 (VStr "t3"); Net.Unsubscribe 0])
     = [Net.ok (VStr "t1"); Net.ok (VStr "t3")].
Proof. split; vm_compute; reflexivity. Qed.

(** * Further properties of [lib.py] *)

(** ** Parameters and outcomes of a request *)

Lemma py_or_falsy (a b : val) : truthy a = false -> py_or a b = b.
Proof. unfold py_or. now intros ->. Qed.

(** A parameter value that Python counts as false ([None], [False], [0],
    [0.0], an empty string, list or dict) is replaced by the empty object
    before it is serialised: the request is the one made with no parameters
    at all. *)
Theorem falsy_params_are_sent_as_empty_object {E R : Type} (rt : Lib.Runtime E R)
    (self : Lib.TonClient E R) (method : string) (params : val) (raise_exception : bool)
    (w : World E) :
  truthy params = false ->
  Lib.request_params rt params = from_string (Lib.json_dumps rt (VDict ∅))
  /\ Lib._request rt self method params w = Lib._request rt self method VNone w
  /\ Lib.request rt self method params raise_exception w
     = Lib.request rt self method VNone raise_exception w.
Proof.
  intros Hf. unfold Lib.request, Lib._request, Lib.request_params.
  now rewrite (py_or_falsy params) by exact Hf.
Qed.

(** [factorize("")] is sent as a request with the parameters [{}]. *)
Lemma falsy_params_are_sent_as_empty_object_witness :
  Lib.factorize Mock.runtime Mock.client "" Mock.session
  = Lib.request Mock.runtime Mock.client "crypto.math.factorize" VNone true Mock.session.
Proof.
  exact (proj2 (proj2 (falsy_params_are_sent_as_empty_object Mock.runtime Mock.client
                         "crypto.math.factorize" (VStr "") true Mock.session eq_refl))).
Defined.

(** When the engine reports success and the payload decodes, [request]
    returns the payload for either value of [raise_exception], and the calls
    it makes are the request, the read and the release of [_request]: it
    adds none of its own. *)
Theorem request_returns_payload_on_success {E R : Type} (rt : Lib.Runtime E R)
    (self : Lib.TonClient E R) (method : string) (params : val) (raise_exception : bool)
    (w : World E) (payload : val) :
  Lib.is_success (Lib.response_type rt) (Lib.response_read rt self method params w) = true ->
  Lib.json (Lib.response_type rt) (Lib.response_read rt self method params w) = Ret payload ->
  outcome (Lib.request rt self method params raise_exception) w = Ret payload
  /\ made (Lib.request rt self method params raise_exception) w
     = [Call_json_request (Lib.context self) (Lib.request_method method)
          (Lib.request_params rt params) (Lib.response_ptr rt self method params w);
        Call_read_json_response (Lib.response_ptr rt self method params w);
        Call_destroy_json_response (Lib.response_ptr rt self method params w)].
Proof.
  intros Hok Hjson. split.
  - unfold outcome. rewrite request_run. simpl. rewrite Hjson, Hok.
    now rewrite andb_false_r.
  - apply made_app. rewrite request_run. cbn [fst]. rewrite _request_run. cbn zeta.
    now rewrite Hjson.
Qed.

Lemma request_returns_payload_on_success_witness :
  outcome (Lib.request Mock.runtime Mock.client "version" VNone true) Mock.session
  = Ret (VStr "0.25.0")
  /\ made (Lib.request Mock.runtime Mock.client "version" VNone true) Mock.session
     = [Call_json_request 1%Z (from_string "version") (from_string "{}") 4096%Z;
        Call_read_json_response 4096%Z;
        Call_destroy_json_response 4096%Z].
Proof.
  apply (request_returns_payload_on_success Mock.runtime Mock.client "version" VNone true
           Mock.session);
    vm_compute; reflexivity.
Defined.

(** When reading the payload raises, [request] raises that very exception,
    not wrapped in another one, and it does so with [raise_exception=False]
    as well: the flag only governs engine errors.  The calls made stop at
    the read. *)
Theorem request_passes_decode_error_through {E R : Type} (rt : Lib.Runtime E R)
    (self : Lib.TonClient E R) (method : string) (params : val) (raise_exception : bool)
    (w : World E) (x : exc) :
  Lib.json (Lib.response_type rt) (Lib.response_read rt self method params w) = Raise x ->
  outcome (Lib.request rt self method params raise_exception) w = Raise x
  /\ made (Lib.request rt self method params raise_exception) w
     = [Call_json_request (Lib.context self) (Lib.request_method method)
          (Lib.request_params rt params) (Lib.response_ptr rt self method params w);
        Call_read_json_response (Lib.response_ptr rt self method params w)].
Proof.
  intros Hjson. split.
  - unfold outcome. rewrite request_run. simpl. now rewrite Hjson.
  - apply made_app. rewrite request_run. cbn [fst]. rewrite _request_run. cbn zeta.
    now rewrite Hjson.
Qed.

Lemma request_passes_decode_error_through_witness :
  outcome (Lib.request Mock.runtime Mock.client "malformed" VNone false) Mock.session
  = Raise (mk_exc "JSONDecodeError" (VStr "Expecting value"))
  /\ made (Lib.request Mock.runtime Mock.client "malformed" VNone false) Mock.session
     = [Call_json_request 1%Z (from_string "malformed") (from_string "{}") 4096%Z;
        Call_read_json_response 4096%Z].
Proof.
  apply (request_passes_decode_error_through Mock.runtime Mock.client "malformed" VNone false
           Mock.session);
    vm_compute; reflexivity.
Defined.

(** [keystore_remove] sends [str(index)] and has no return value: when the
    payload decodes it gives [None] on success, whatever the engine sent
    back, and raises the generic [Exception] with the payload on an engine
    error. *)
Theorem keystore_remove_returns_none {E R : Type} (rt : Lib.Runtime E R)
    (self : Lib.TonClient E R) (index : string + Z) (w : World E) (payload : val) :
  Lib.json (Lib.response_type rt)
    (Lib.response_read rt self "crypto.keystore.remove"
       (VStr (match index with inl s => s | inr z => pretty z end)) w) = Ret payload ->
  outcome (Lib.keystore_remove rt self index) w
  = if Lib.is_success (Lib.response_type rt)
         (Lib.response_read rt self "crypto.keystore.remove"
            (VStr (match index with inl s => s | inr z => pretty z end)) w)
    then Ret VNone
    else Raise (mk_exc "Exception" payload).
Proof.
  intros Hjson. unfold outcome, Lib.keystore_remove, bind at 1.
  rewrite request_run. simpl. rewrite Hjson.
  now destruct (Lib.is_success _ _).
Qed.

Lemma keystore_remove_returns_none_witness :
  outcome (Lib.keystore_remove Mock.runtime Mock.client (inr 7%Z)) Mock.session
  = Raise (mk_exc "Exception" (Mock.error_payload 1 "Unknown method")).
Proof.
  refine (eq_trans
            (keystore_remove_returns_none Mock.runtime Mock.client (inr 7%Z) Mock.session
               (Mock.error_payload 1 "Unknown method") _) _);
    vm_compute; reflexivity.
Defined.

(** ** The methods that adapt a tagged string *)

Lemma _str_type_dict_unknown {E R : Type} (self : Lib.TonClient E R) (s fmt : string) :
  Lib.unknown_format fmt -> Lib._str_type_dict self s fmt = Raise Lib.format_error.
Proof.
  intros (Hb & Hh & Ht). unfold Lib._str_type_dict.
  apply String.eqb_neq in Hb, Hh, Ht. now rewrite Hb, Hh, Ht.
Qed.

Lemma _str_type_dict_raise {E R : Type} (self : Lib.TonClient E R) (s fmt : string) (x : exc) :
  Lib._str_type_dict self s fmt = Raise x -> x = Lib.format_error.
Proof.
  unfold Lib._str_type_dict.
  repeat match goal with |- context [if ?b then _ else _] => destruct b end;
    first [discriminate | now intros [= <-]].
Qed.

(** Every method that takes a tagged string checks the tag before it talks
    to the engine: with a tag other than base64, hex and text it raises
    [ValueError] and the world is untouched, no request having been made. *)
Theorem unknown_format_raises_before_any_request {E R : Type} (rt : Lib.Runtime E R)
    (self : Lib.TonClient E R) (fmt a b c d : string) (word_count : option Z)
    (w : World E) :
  Lib.unknown_format fmt ->
  Lib.ton_crc16 rt self a fmt w = (w, Raise Lib.format_error)
  /\ Lib.mnemonic_from_entropy rt self a fmt word_count w = (w, Raise Lib.format_error)
  /\ Lib.sha512 rt self a fmt w = (w, Raise Lib.format_error)
  /\ Lib.sha256 rt self a fmt w = (w, Raise Lib.format_error)
  /\ Lib.nacl_box rt self a b c fmt w = (w, Raise Lib.format_error)
  /\ Lib.nacl_sign rt self a b fmt w = (w, Raise Lib.format_error)
  /\ Lib.nacl_secret_box_open rt self a b c fmt w = (w, Raise Lib.format_error)
  /\ Lib.nacl_sign_detached rt self a b fmt w = (w, Raise Lib.format_error)
  /\ Lib.nacl_secret_box rt self a b c fmt w = (w, Raise Lib.format_error)
  /\ Lib.nacl_box_open rt self a b c d fmt w = (w, Raise Lib.format_error)
  /\ Lib.nacl_sign_open rt self a b fmt w = (w, Raise Lib.format_error).
Proof.
  intros Hfmt.
  unfold Lib.ton_crc16, Lib.mnemonic_from_entropy, Lib.sha512, Lib.sha256, Lib.nacl_box,
    Lib.nacl_sign, Lib.nacl_secret_box_open, Lib.nacl_sign_detached, Lib.nacl_secret_box,
    Lib.nacl_box_open, Lib.nacl_sign_open, bind, lift.
  rewrite !_str_type_dict_unknown by exact Hfmt.
  repeat split.
Qed.

Lemma unknown_format_raises_before_any_request_witness :
  Lib.sha256 Mock.runtime Mock.client "c0ffee" "HEX" Mock.session
  = (Mock.session, Raise Lib.format_error).
Proof.
  refine (proj1 (proj2 (proj2 (proj2
            (unknown_format_raises_before_any_request Mock.runtime Mock.client "HEX"
               "c0ffee" "" "" "" None Mock.session _))))).
  repeat split; discriminate.
Defined.

(** [scrypt] adapts the salt and the password before it talks to the
    engine: if either tag is unknown it raises [ValueError] and no request is
    made. *)
Theorem scrypt_unknown_format_raises_before_any_request {E R : Type} (rt : Lib.Runtime E R)
    (self : Lib.TonClient E R) (data : string) (n r p dk_len : Z)
    (salt salt_fmt password password_fmt : string) (w : World E) :
  Lib.unknown_format salt_fmt \/ Lib.unknown_format password_fmt ->
  Lib.scrypt rt self data n r p dk_len salt salt_fmt password password_fmt w
  = (w, Raise Lib.format_error).
Proof.
  intros H. unfold Lib.scrypt, bind, lift.
  destruct (Lib._str_type_dict self salt salt_fmt) as [salt'|x] eqn:Hsalt.
  - destruct H as [H|H].
    + rewrite _str_type_dict_unknown in Hsalt by exact H. discriminate.
    + now rewrite _str_type_dict_unknown by exact H.
  - now rewrite (_str_type_dict_raise self salt salt_fmt x Hsalt).
Qed.

Lemma scrypt_unknown_format_raises_before_any_request_witness :
  Lib.scrypt Mock.runtime Mock.client "data" 10 8 1 32 "salt" "text" "secret" "utf8"
    Mock.session
  = (Mock.session, Raise Lib.format_error).
Proof.
  apply scrypt_unknown_format_raises_before_any_request.
  right. repeat split; discriminate.
Defined.

(** With a known tag the adapted string is sent under the key that is the
    tag itself, nested under [message]: [sha256] makes the one request
    [crypto.sha256] with [{"message": {fmt: string}}]. *)
Example sha256_hex_request :
  made (Lib.sha256 Mock.runtime Mock.client "c0ffee" Lib.TYPE_HEX) Mock.session
  = [Call_json_request 1%Z (from_string "crypto.sha256")
       (Lib.request_params Mock.runtime
          (VDict {[ "message" := VDict {[ "hex" := VStr "c0ffee" ]} ]})) 4096%Z;
     Call_read_json_response 4096%Z;
     Call_destroy_json_response 4096%Z].
Proof. vm_compute. reflexivity. Qed.

(** ** Word counts *)

Lemma split_char_nonempty (sep : ascii) (s : string) : split_char sep s <> [].
Proof.
  destruct s as [|c r]; simpl; [discriminate|].
  destruct (Ascii.eqb c sep); [discriminate|].
  destruct (split_char sep r); discriminate.
Qed.

Lemma length_split_char (sep : ascii) (s : string) :
  length (split_char sep s) = S (count_char sep s).
Proof.
  induction s as [|c r IH]; simpl; [reflexivity|].
  destruct (Ascii.eqb c sep); simpl.
  - now rewrite IH.
  - destruct (split_char sep r) as [|piece pieces] eqn:Hsplit; [discriminate IH|].
    exact IH.
Qed.

(** Joining the pieces with the separator gives the string back. *)
Lemma join_split_char (sep : ascii) (s : string) : join_char sep (split_char sep s) = s.
Proof.
  induction s as [|c r IH]; [reflexivity|].
  pose proof (split_char_nonempty sep r) as Hne.
  simpl. destruct (Ascii.eqb c sep) eqn:Hc.
  - apply Ascii.eqb_eq in Hc. subst c.
    destruct (split_char sep r) as [|piece pieces]; [contradiction|].
    change (String sep (join_char sep (piece :: pieces)) = String sep r).
    now rewrite IH.
  - destruct (split_char sep r) as [|piece pieces]; [contradiction|].
    destruct pieces as [|piece' pieces].
    + simpl in *. now rewrite IH.
    + change (String c (join_char sep (piece :: piece' :: pieces)) = String c r).
      now rewrite IH.
Qed.

(** The word count sent with a mnemonic is the number of single spaces in
    it plus one, whatever lies between the spaces: the empty phrase counts
    one word, and a doubled or trailing space counts an empty word. *)
Theorem mnemonic_word_count_is_spaces_plus_one {E R : Type} (rt : Lib.Runtime E R)
    (self : Lib.TonClient E R) (mnemonic : string) :
  Lib.derive_sign_keys rt self mnemonic
  = Lib.request rt self "crypto.mnemonic.derive.sign.keys"
      (VDict (<["phrase" := VStr mnemonic]>
              (<["wordCount" := VInt (Z.of_nat (count_char " " mnemonic) + 1)]> ∅))) true
  /\ Lib.mnemonic_verify rt self mnemonic
     = Lib.request rt self "crypto.mnemonic.verify"
         (VDict (<["phrase" := VStr mnemonic]>
                 (<["wordCount" := VInt (Z.of_nat (count_char " " mnemonic) + 1)]> ∅))) true
  /\ Lib.hdkey_xprv_from_mnemonic rt self mnemonic
     = Lib.request rt self "crypto.hdkey.xprv.from.mnemonic"
         (VDict (<["phrase" := VStr mnemonic]>
                 (<["wordCount" := VInt (Z.of_nat (count_char " " mnemonic) + 1)]> ∅))) true.
Proof.
  unfold Lib.derive_sign_keys, Lib.mnemonic_verify, Lib.hdkey_xprv_from_mnemonic.
  rewrite length_split_char.
  replace (Z.of_nat (S (count_char " " mnemonic)))
    with (Z.of_nat (count_char " " mnemonic) + 1)%Z by lia.
  repeat split.
Qed.

Example word_count_edge_cases :
  length (split_char " " "") = 1
  /\ length (split_char " " "abandon ability able") = 3
  /\ split_char " " "abandon  able " = ["abandon"; ""; "able"; ""].
Proof. repeat split. Qed.

(** ** Creating a client *)

Lemma c_uint32_c_int (u : Z) : (0 <= u < 2 ^ 32)%Z -> c_uint32 (c_int u) = u.
Proof.
  intros Hu. unfold c_uint32, c_int.
  change (2 ^ 32)%Z with 4294967296%Z in *. change (2 ^ 31)%Z with 2147483648%Z.
  destruct (Z.lt_ge_cases u 2147483648) as [Hlt|Hge].
  - rewrite (Z.mod_small (u + 2147483648)) by lia.
    replace (u + 2147483648 - 2147483648)%Z with u by lia.
    apply Z.mod_small. lia.
  - replace (u + 2147483648)%Z with ((u - 2147483648) + 1 * 4294967296)%Z by lia.
    rewrite Z.mod_add by lia.
    rewrite (Z.mod_small (u - 2147483648)) by lia.
    replace (u - 2147483648 - 2147483648)%Z with (u + (-1) * 4294967296)%Z by lia.
    rewrite Z.mod_add by lia.
    apply Z.mod_small. lia.
Qed.

(** The handle a client keeps is the engine's unsigned 32-bit handle: the
    foreign call reports it through the default signed return type, negative
    from 2^31 on, and wrapping it in [c_uint32] restores it.  Creation makes
    that one foreign call. *)
Theorem init_restores_unsigned_handle {E R : Type} (rt : Lib.Runtime E R) (lib_path : string)
    (l : Lib.NativeLib E R) (w : World E) (u : Z) :
  Lib.LoadLibrary rt lib_path = Ret l ->
  (0 <= u < 2 ^ 32)%Z ->
  fst (Lib.tc_create_context l (eng w)) = c_int u ->
  outcome (Lib.__init__ rt lib_path) w = Ret {| Lib.lib := l; Lib.context := u |}
  /\ made (Lib.__init__ rt lib_path) w = [Call_create_context (c_int u)].
Proof.
  intros Hload Hu Hret.
  unfold outcome, made, Lib.__init__, Lib._create_context, Lib.ffi_create_context,
    bind, lift, ret.
  rewrite Hload. destruct (Lib.tc_create_context l (eng w)) as [h e]; simpl in *.
  subst h. rewrite c_uint32_c_int by exact Hu.
  split; [reflexivity|]. apply drop_app_length.
Qed.

Lemma init_restores_unsigned_handle_witness :
  outcome (Lib.__init__ Mock.runtime_high "libton.so") Mock.start
  = Ret {| Lib.lib := Mock.native_high; Lib.context := 4294967295 |}
  /\ made (Lib.__init__ Mock.runtime_high "libton.so") Mock.start = [Call_create_context (-1)].
Proof.
  apply (init_restores_unsigned_handle Mock.runtime_high "libton.so" Mock.native_high
           Mock.start 4294967295).
  - reflexivity.
  - lia.
  - vm_compute. reflexivity.
Defined.

(** On a platform with a library, creating a client loads the path that
    [get_lib_basename] returned; if loading it raises, that exception leaves
    [TonClient()] and no context is created: the world is untouched. *)
Theorem new_client_load_failure {E R : Type} (rt : Lib.Runtime E R) (p : Lib.Platform)
    (path : string) (x : exc) (w : World E) :
  Lib.get_lib_basename p = Ret path ->
  Lib.LoadLibrary rt path = Raise x ->
  Lib.new_client rt p w = (w, Raise x).
Proof.
  intros Hpath Hload.
  unfold Lib.new_client, Lib.import_, Lib.__init__, bind, lift.
  rewrite Hpath. simpl. now rewrite Hload.
Qed.

Lemma new_client_load_failure_witness :
  Lib.new_client Mock.runtime_without_library Mock.linux Mock.start
  = (Mock.start,
     Raise (mk_exc "OSError"
              (VStr "/opt/tonsdk/bin/ton-rust-client-0.25.0.so: cannot open shared object file"))).
Proof.
  apply (new_client_load_failure Mock.runtime_without_library Mock.linux
           "/opt/tonsdk/bin/ton-rust-client-0.25.0.so");
    reflexivity.
Defined.

(** ** Library resolution *)

Lemma ascii_lower_idempotent (c : ascii) : ascii_lower (ascii_lower c) = ascii_lower c.
Proof. destruct c as [[] [] [] [] [] [] [] []]; reflexivity. Qed.

Lemma lower_idempotent (s : string) : lower (lower s) = lower s.
Proof.
  induction s as [|c r IH]; simpl; [reflexivity|].
  now rewrite ascii_lower_idempotent, IH.
Qed.

(** Whenever [get_lib_basename] returns, the platform is one of the three
    in its table and the path ends in the versioned file name with that
    platform's extension: it never returns a path for another platform. *)
Theorem get_lib_basename_returns_only_known_libraries (p : Lib.Platform) (path : string) :
  Lib.get_lib_basename p = Ret path ->
  (lower (Lib.platform_system p) = "windows"
   /\ endswith path "ton-rust-client-0.25.0.dll" = true)
  \/ (lower (Lib.platform_system p) = "darwin"
      /\ endswith path "ton-rust-client-0.25.0.dylib" = true)
  \/ (lower (Lib.platform_system p) = "linux"
      /\ endswith path "ton-rust-client-0.25.0.so" = true).
Proof.
  unfold Lib.get_lib_basename.
  destruct (Lib.lib_ext_dict !! lower (Lib.platform_system p)) as [ext|] eqn:Hext;
    [|discriminate].
  intros [= <-].
  destruct (os_path_join_suffix (Lib.os_sep p) (Lib.LIB_DIR p)
              (Lib.LIB_FILENAME ++ "." ++ ext)) as [x ->].
  unfold Lib.lib_ext_dict in Hext.
  apply lookup_insert_Some in Hext as [[Hk <-]|[_ Hext]];
    [left; split; [now rewrite <- Hk | apply endswith_app]|].
  apply lookup_insert_Some in Hext as [[Hk <-]|[_ Hext]];
    [right; left; split; [now rewrite <- Hk | apply endswith_app]|].
  apply lookup_insert_Some in Hext as [[Hk <-]|[_ Hext]];
    [right; right; split; [now rewrite <- Hk | apply endswith_app]|].
  now rewrite lookup_empty in Hext.
Qed.

Lemma get_lib_basename_returns_only_known_libraries_witness :
  (lower "Linux" = "windows"
   /\ endswith "/opt/tonsdk/bin/ton-rust-client-0.25.0.so" "ton-rust-client-0.25.0.dll" = true)
  \/ (lower "Linux" = "darwin"
      /\ endswith "/opt/tonsdk/bin/ton-rust-client-0.25.0.so" "ton-rust-client-0.25.0.dylib"
         = true)
  \/ (lower "Linux" = "linux"
      /\ endswith "/opt/tonsdk/bin/ton-rust-client-0.25.0.so" "ton-rust-client-0.25.0.so"
         = true).
Proof.
  apply (get_lib_basename_returns_only_known_libraries Mock.linux). reflexivity.
Defined.

(** The platform name is matched without regard to letter case: resolving
    on the lower-cased name gives the same path, or the same error, as
    resolving on the name as reported. *)
Theorem get_lib_basename_ignores_case (p : Lib.Platform) :
  Lib.get_lib_basename
    {| Lib.platform_system := lower (Lib.platform_system p);
       Lib.BASE_DIR := Lib.BASE_DIR p; Lib.os_sep := Lib.os_sep p |}
  = Lib.get_lib_basename p.
Proof.
  unfold Lib.get_lib_basename, Lib.LIB_DIR. simpl.
  now rewrite lower_idempotent.
Qed.

Example get_lib_basename_upper_case :
  Lib.get_lib_basename
    {| Lib.platform_system := "DARWIN"; Lib.BASE_DIR := "/opt/tonsdk"; Lib.os_sep := "/"%char |}
  = Ret "/opt/tonsdk/bin/ton-rust-client-0.25.0.dylib".
Proof. reflexivity. Qed.

(** * Further properties of [client.py] *)

(** What one run of [TonClient( **config)] does when no entry of the
    configuration is named [self] or [method]. *)
Lemma client_init_run {E : Type} (type_error_text : Client.call_error -> string)
    (b : Client.Bindings E) (config : gmap string val) (w : World E) :
  config !! "self" = None ->
  config !! "method" = None ->
  Client.__init__ type_error_text b config w =
  let h := fst (Client.tc_create_context b (eng w)) in
  let settings := dict_merge Client.TON_CLIENT_DEFAULT_SETUP config in
  let r := Client.TonModule_request b h "setup" settings
             (snd (Client.tc_create_context b (eng w))) in
  ({| eng := snd r;
      calls := calls w ++ [Call_bindings_create_context h;
                           Call_module_request h "setup" settings] |},
   match fst r with
   | Ret _ =>
       Ret {| Client._ctx := h;
              Client.base := {| Client.ctx := h |};
              Client.crypto := {| Client.ctx := h |};
              Client.queries := {| Client.ctx := h |};
              Client.contracts := {| Client.ctx := h |} |}
   | Raise x => Raise x
   end).
Proof.
  intros Hs Hm.
  unfold Client.__init__. rewrite Hs.
  unfold Client.TonClientBase_setup, Client.request,
    Client.call_create_context, bind, ret.
  rewrite dict_merge_default by exact Hm.
  change (Client.TON_CLIENT_DEFAULT_SETUP !! "method") with (@None val).
  destruct (Client.tc_create_context b (eng w)) as [h e]; simpl.
  destruct (Client.TonModule_request b h _ _ e) as [[r|x] e']; simpl;
    now rewrite <- app_assoc.
Qed.

(** A configuration with an entry named [self] never reaches the body of
    the constructor: [TypeError] is raised and the world is untouched, no
    context having been created. *)
Lemma client_init_self_entry {E : Type} (type_error_text : Client.call_error -> string)
    (b : Client.Bindings E) (config : gmap string val) (w : World E) (v : val) :
  config !! "self" = Some v ->
  Client.__init__ type_error_text b config w
  = (w, Raise (mk_exc "TypeError"
                 (VStr (type_error_text
                          (Client.Multiple_values_for_argument "__init__" "self"))))).
Proof. intros Hs. unfold Client.__init__. now rewrite Hs. Qed.

(** If the [setup] request raises, client creation raises the same
    exception, and the context it has just created is left as it is: the
    calls made are the creation and the request, with no destroy call. *)
Theorem client_init_setup_failure_leaves_context {E : Type}
    (type_error_text : Client.call_error -> string) (b : Client.Bindings E)
    (config : gmap string val) (w : World E) (x : exc) :
  config !! "self" = None ->
  config !! "method" = None ->
  fst (Client.TonModule_request b (fst (Client.tc_create_context b (eng w))) "setup"
         (dict_merge Client.TON_CLIENT_DEFAULT_SETUP config)
         (snd (Client.tc_create_context b (eng w)))) = Raise x ->
  outcome (Client.__init__ type_error_text b config) w = Raise x
  /\ made (Client.__init__ type_error_text b config) w
     = [Call_bindings_create_context (fst (Client.tc_create_context b (eng w)));
        Call_module_request (fst (Client.tc_create_context b (eng w))) "setup"
          (dict_merge Client.TON_CLIENT_DEFAULT_SETUP config)].
Proof.
  intros Hs Hm Hfail. split.
  - unfold outcome. rewrite client_init_run by assumption. simpl. now rewrite Hfail.
  - apply made_app. now rewrite client_init_run by assumption.
Qed.

Lemma client_init_setup_failure_leaves_context_witness :
  outcome (Client.__init__ Mock.type_error_text Mock.bindings_failing ∅) Mock.start
  = Raise (mk_exc "Exception" (Mock.error_payload 3 "Invalid config"))
  /\ made (Client.__init__ Mock.type_error_text Mock.bindings_failing ∅) Mock.start
     = [Call_bindings_create_context 1%Z;
        Call_module_request 1%Z "setup" (dict_merge Client.TON_CLIENT_DEFAULT_SETUP ∅)]
  /\ Mock.live (eng (fst (Client.__init__ Mock.type_error_text Mock.bindings_failing ∅
                            Mock.start)))
     = {[ 1%Z ]}.
Proof.
  split; [|split].
  - apply (client_init_setup_failure_leaves_context Mock.type_error_text
             Mock.bindings_failing ∅ Mock.start);
      vm_compute; reflexivity.
  - refine (proj2 (client_init_setup_failure_leaves_context Mock.type_error_text
                     Mock.bindings_failing ∅ Mock.start
                     (mk_exc "Exception" (Mock.error_payload 3 "Invalid config")) _ _ _));
      vm_compute; reflexivity.
  - vm_compute. reflexivity.
Defined.

(** If the [setup] request returns, whatever it returns is dropped, and the
    client has the created handle as [_ctx] with its four facades, [base],
    [crypto], [queries] and [contracts], all bound to that same handle. *)
Theorem client_init_shares_one_context {E : Type}
    (type_error_text : Client.call_error -> string) (b : Client.Bindings E)
    (config : gmap string val) (w : World E) (v : val) :
  config !! "self" = None ->
  config !! "method" = None ->
  fst (Client.TonModule_request b (fst (Client.tc_create_context b (eng w))) "setup"
         (dict_merge Client.TON_CLIENT_DEFAULT_SETUP config)
         (snd (Client.tc_create_context b (eng w)))) = Ret v ->
  exists c,
    outcome (Client.__init__ type_error_text b config) w = Ret c
    /\ Client._ctx c = fst (Client.tc_create_context b (eng w))
    /\ Client.ctx (Client.base c) = Client._ctx c
    /\ Client.ctx (Client.crypto c) = Client._ctx c
    /\ Client.ctx (Client.queries c) = Client._ctx c
    /\ Client.ctx (Client.contracts c) = Client._ctx c.
Proof.
  intros Hs Hm Hok. eexists. split.
  - unfold outcome. rewrite client_init_run by assumption. simpl. rewrite Hok. reflexivity.
  - repeat split.
Qed.

Lemma client_init_shares_one_context_witness :
  exists c,
    outcome (Client.__init__ Mock.type_error_text Mock.bindings ∅) Mock.start = Ret c
    /\ Client._ctx c = fst (Client.tc_create_context Mock.bindings (eng Mock.start))
    /\ Client.ctx (Client.base c) = Client._ctx c
    /\ Client.ctx (Client.crypto c) = Client._ctx c
    /\ Client.ctx (Client.queries c) = Client._ctx c
    /\ Client.ctx (Client.contracts c) = Client._ctx c.
Proof.
  apply (client_init_shares_one_context Mock.type_error_text Mock.bindings ∅ Mock.start
           VNone);
    vm_compute; reflexivity.
Defined.

(** For a configuration with no entry named [self] or [method], the
    parameters sent with [setup] have the eight default keys and the
    caller's keys, and nothing else: a key outside the defaults is passed on
    as given, and with no configuration at all the defaults are sent
    unchanged. *)
Theorem client_init_sends_defaults_and_caller_keys {E : Type}
    (type_error_text : Client.call_error -> string) (b : Client.Bindings E)
    (config : gmap string val) (w : World E) :
  config !! "self" = None ->
  config !! "method" = None ->
  exists settings,
    made (Client.__init__ type_error_text b config) w
    = [Call_bindings_create_context (fst (Client.tc_create_context b (eng w)));
       Call_module_request (fst (Client.tc_create_context b (eng w))) "setup" settings]
    /\ dom settings = dom Client.TON_CLIENT_DEFAULT_SETUP ∪ dom config
    /\ (config = ∅ -> settings = Client.TON_CLIENT_DEFAULT_SETUP).
Proof.
  intros Hs Hm. exists (dict_merge Client.TON_CLIENT_DEFAULT_SETUP config).
  split; [|split].
  - apply made_app. now rewrite client_init_run by assumption.
  - unfold dict_merge. rewrite dom_union_L. apply union_comm_L.
  - intros ->. unfold dict_merge. apply (left_id ∅ (∪)).
Qed.

Lemma client_init_sends_defaults_and_caller_keys_witness :
  exists settings,
    made (Client.__init__ Mock.type_error_text Mock.bindings
            {[ "logLevel" := VStr "debug" ]}) Mock.start
    = [Call_bindings_create_context
         (fst (Client.tc_create_context Mock.bindings (eng Mock.start)));
       Call_module_request
         (fst (Client.tc_create_context Mock.bindings (eng Mock.start))) "setup" settings]
    /\ dom settings = dom Client.TON_CLIENT_DEFAULT_SETUP ∪ dom ({[ "logLevel" := VStr "debug" ]} : gmap string val)
    /\ (({[ "logLevel" := VStr "debug" ]} : gmap string val) = ∅
        -> settings = Client.TON_CLIENT_DEFAULT_SETUP).
Proof.
  apply (client_init_sends_defaults_and_caller_keys Mock.type_error_text Mock.bindings
           {[ "logLevel" := VStr "debug" ]} Mock.start);
    vm_compute; reflexivity.
Defined.

(** ** Destroying a context *)



(** Against a wrapper that rejects a handle that is not live, the second
    destruction of a client is forwarded and raises the wrapper's error. *)
Example destroy_twice_strict_wrapper :
  made (c <- Client.__init__ Mock.type_error_text Mock.bindings_strict ∅ ;;
        _ <- Client.destroy_context Mock.bindings_strict c ;;
        Client.destroy_context Mock.bindings_strict c) Mock.start
  = [Call_bindings_create_context 1%Z;
     Call_module_request 1%Z "setup" Client.TON_CLIENT_DEFAULT_SETUP;
     Call_bindings_destroy_context 1%Z;
     Call_bindings_destroy_context 1%Z]
  /\ outcome (c <- Client.__init__ Mock.type_error_text Mock.bindings_strict ∅ ;;
              _ <- Client.destroy_context Mock.bindings_strict c ;;
              Client.destroy_context Mock.bindings_strict c) Mock.start
     = Raise (mk_exc "Exception" (Mock.error_payload 2 "Invalid context handle")).
Proof. split; vm_compute; reflexivity. Qed.

(** * The adapted string, read back *)

(** Whenever [_str_type_dict] returns, the tag is one of the three
    constants and the dict has the single entry whose key is the tag itself
    and whose value is the string: both arguments can be read back from the
    result. *)
Theorem str_type_dict_returns_singleton_of_tag {E R : Type} (self : Lib.TonClient E R)
    (s fmt : string) (d : gmap string val) :
  Lib._str_type_dict self s fmt = Ret d ->
  (fmt = "base64" \/ fmt = "hex" \/ fmt = "text")
  /\ d = {[ fmt := VStr s ]}
  /\ map_to_list d = [(fmt, VStr s)].
Proof.
  unfold Lib._str_type_dict, Lib.TYPE_BASE64, Lib.TYPE_HEX, Lib.TYPE_TEXT.
  destruct (String.eqb fmt "base64") eqn:Hb;
    [apply String.eqb_eq in Hb; subst fmt; intros [= <-];
     split; [tauto | split; [reflexivity | apply map_to_list_singleton]]|].
  destruct (String.eqb fmt "hex") eqn:Hh;
    [apply String.eqb_eq in Hh; subst fmt; intros [= <-];
     split; [tauto | split; [reflexivity | apply map_to_list_singleton]]|].
  destruct (String.eqb fmt "text") eqn:Ht;
    [apply String.eqb_eq in Ht; subst fmt; intros [= <-];
     split; [tauto | split; [reflexivity | apply map_to_list_singleton]]|].
  discriminate.
Qed.

Lemma str_type_dict_returns_singleton_of_tag_witness :
  (Lib.TYPE_TEXT = "base64" \/ Lib.TYPE_TEXT = "hex" \/ Lib.TYPE_TEXT = "text")
  /\ ({[ "text" := VStr "hello" ]} : gmap string val) = {[ Lib.TYPE_TEXT := VStr "hello" ]}
  /\ map_to_list ({[ "text" := VStr "hello" ]} : gmap string val)
     = [(Lib.TYPE_TEXT, VStr "hello")].
Proof.
  apply (str_type_dict_returns_singleton_of_tag Mock.client "hello" Lib.TYPE_TEXT).
  reflexivity.
Defined.

(** With a known tag, the hashing and checksum methods make the request of
    their method name with the adapted string as parameters: [ton_crc16]
    sends [{fmt: string}] itself, [sha256] and [sha512] send it under
    [message]. *)
Theorem hash_methods_send_adapted_string {E R : Type} (rt : Lib.Runtime E R)
    (self : Lib.TonClient E R) (s fmt : string) :
  fmt = "base64" \/ fmt = "hex" \/ fmt = "text" ->
  Lib.ton_crc16 rt self s fmt
  = Lib.request rt self "crypto.ton_crc16" (VDict {[ fmt := VStr s ]}) true
  /\ Lib.sha256 rt self s fmt
     = Lib.request rt self "crypto.sha256"
         (VDict {[ "message" := VDict {[ fmt := VStr s ]} ]}) true
  /\ Lib.sha512 rt self s fmt
     = Lib.request rt self "crypto.sha512"
         (VDict {[ "message" := VDict {[ fmt := VStr s ]} ]}) true.
Proof.
  intros [-> | [-> | ->]]; repeat split.
Qed.

Lemma hash_methods_send_adapted_string_witness :
  Lib.ton_crc16 Mock.runtime Mock.client "c0ffee" "hex"
  = Lib.request Mock.runtime Mock.client "crypto.ton_crc16"
      (VDict {[ "hex" := VStr "c0ffee" ]}) true.
Proof.
  refine (proj1 (hash_methods_send_adapted_string Mock.runtime Mock.client "c0ffee" "hex" _)).
  right. left. reflexivity.
Defined.
